(** * Electricity bill processor: handlers of the server, embedded in Rocq

    The development follows the TypeScript handlers of the server:
    [uploadZip], [processBill], [updateBillResult] with
    [updateUploadBatchProgress], [calculateSelicCorrection] with
    [getSelicRatesForPeriod] and [calculateAccumulatedCorrection],
    [loadSelicData] with [getAllSelicRates] and [getLatestSelicRate],
    [generateReport] and [getUploadStatus].

    - JavaScript numbers are IEEE 754 binary64 values: Rocq's primitive
      floats, so arithmetic here is the arithmetic of the handlers, bit for
      bit.
    - A [Date] is kept by its calendar fields; its time value ([getTime]) is
      computed from them the way ECMAScript's MakeDay/MakeDate do, and dates
      are compared through it.  The server's local time zone is taken to be
      UTC, so the local getters and [toISOString] read the same fields.
    - The three tables are lists of rows in insertion order; a handler is a
      function from the database to an outcome (a value or a thrown error)
      and the database it leaves behind.  What was written before a throw
      stays written.
    - What the handlers take from their platform (the value a PostgreSQL
      [numeric(p,s)] column keeps, [new Date(text)], [parseFloat]) is a
      parameter, the class [Platform].
    - The counters of a batch are [integer] columns: a statement that
      writes a number outside the 32-bit range to one is rejected, the
      handler throws and the table is as before.
    - Text is ASCII ([string]). *)

From Stdlib Require Import ZArith Lia List Bool String Ascii.
From Stdlib Require Import Floats.PrimFloat.
From Stdlib Require Import DecimalString.
From Stdlib Require Import Permutation.
Import ListNotations.

Set Warnings "-inexact-float".

Open Scope Z_scope.

(** ** JavaScript values *)

Module Js.

(** [ToBoolean] on a number: [0], [-0] and [NaN] are falsy. *)
Definition truthy (x : float) : bool := negb (is_zero x || is_nan x).

(** [x || 0] on a number. *)
Definition or_zero (x : float) : float := if truthy x then x else 0%float.

(** [isNaN(x)] on a number. *)
Definition isNaN (x : float) : bool := is_nan x.

(** [`${n}`] for an integer. *)
Definition string_of_Z (n : Z) : string := NilZero.string_of_int (Z.to_int n).

(** [s.includes(pat)]. *)
Fixpoint includes (s pat : string) : bool :=
  if String.prefix pat s then true
  else match s with
       | EmptyString => false
       | String _ s' => includes s' pat
       end.

(** [s.split(sep)] for a one-character separator: a non-empty list of
    pieces, [(piece before the first sep, the other pieces)]. *)
Fixpoint split_from (sep : ascii) (s : string) : string * list string :=
  match s with
  | EmptyString => (EmptyString, [])
  | String c s' =>
      let (piece, others) := split_from sep s' in
      if Ascii.eqb c sep then (EmptyString, piece :: others)
      else (String c piece, others)
  end.

Definition split (sep : ascii) (s : string) : list string :=
  let (piece, others) := split_from sep s in piece :: others.

(** White space removed by [trim]: tab, line feed, vertical tab, form feed,
    carriage return, space. *)
Definition is_space (c : ascii) : bool :=
  let n := N_of_ascii c in
  ((9 <=? n) && (n <=? 13))%N || (n =? 32)%N.

Fixpoint trimStart (s : string) : string :=
  match s with
  | String c s' => if is_space c then trimStart s' else s
  | EmptyString => EmptyString
  end.

(** [trimEnd]: a character is kept when it is not white space or when
    something is kept after it. *)
Fixpoint trimEnd (s : string) : string :=
  match s with
  | EmptyString => EmptyString
  | String c s' =>
      match trimEnd s' with
      | EmptyString => if is_space c then EmptyString else String c EmptyString
      | rest => String c rest
      end
  end.

Definition trim (s : string) : string := trimEnd (trimStart s).

(** A string is truthy when it is not empty. *)
Definition nonempty (s : string) : bool :=
  match s with EmptyString => false | _ => true end.

Definition lower (c : ascii) : ascii :=
  let n := N_of_ascii c in
  if ((65 <=? n) && (n <=? 90))%N then ascii_of_N (n + 32) else c.

Fixpoint toLowerCase (s : string) : string :=
  match s with
  | EmptyString => EmptyString
  | String c s' => String (lower c) (toLowerCase s')
  end.

(** [arr.pop()] on the non-empty result of [split]. *)
Definition pop (l : list string) : string := List.last l EmptyString.

(** [buffer.toString('utf8', 0, n)]: the first [n] bytes. *)
Definition take (n : nat) (s : string) : string := String.substring 0 n s.

End Js.

(** ** Dates *)

Module Date.

(** Calendar fields of a date: [month] is 0-based as in JavaScript, [day]
    is the day of the month from 1, [ms] the milliseconds since midnight. *)
Record t := mk { year : Z; month : Z; day : Z; ms : Z }.

Definition msPerDay : Z := 86400000.

Definition isLeap (y : Z) : bool :=
  (y mod 4 =? 0) && (negb (y mod 100 =? 0) || (y mod 400 =? 0)).

Definition daysInMonth (y m : Z) : Z :=
  match m with
  | 1 => if isLeap y then 29 else 28
  | 3 | 5 | 8 | 10 => 30
  | _ => 31
  end.

(** ECMAScript [DayFromYear]: the day number of 1 January of [y]. *)
Definition dayFromYear (y : Z) : Z :=
  365 * (y - 1970) + (y - 1969) / 4 - (y - 1901) / 100 + (y - 1601) / 400.

(** Days of year [y] before month [m]. *)
Definition dayWithinYear (y m : Z) : Z :=
  let leap := if isLeap y then 1 else 0 in
  match m with
  | 0 => 0 | 1 => 31 | 2 => 59 + leap | 3 => 90 + leap | 4 => 120 + leap
  | 5 => 151 + leap | 6 => 181 + leap | 7 => 212 + leap | 8 => 243 + leap
  | 9 => 273 + leap | 10 => 304 + leap | _ => 334 + leap
  end.

(** Months are counted from year 0: month [k] is month [k mod 12] of year
    [k / 12] (floor division, so a month number outside 0..11 carries
    into the year as ECMAScript's [MakeDay] does). *)
Definition monthIndex (d : t) : Z := 12 * year d + month d.

(** Day number of the first day of month [k]. *)
Definition firstDay (k : Z) : Z :=
  dayFromYear (k / 12) + dayWithinYear (k / 12) (k mod 12).

(** The time value: milliseconds since 1970-01-01T00:00:00Z. *)
Definition getTime (d : t) : Z :=
  (firstDay (monthIndex d) + (day d - 1)) * msPerDay + ms d.

Definition getFullYear (d : t) : Z := year d.
Definition getMonth (d : t) : Z := month d.

(** The date that is [dy] days after the day before the first of month
    [k]: day [dy] of that month when the month has it, otherwise the days
    beyond the month's end run into the next month (31 January set to
    February gives 3 March, or 2 March in a leap year). *)
Definition ofMonthDay (k dy msv : Z) : t :=
  let dim := daysInMonth (k / 12) (k mod 12) in
  if dy <=? dim then mk (k / 12) (k mod 12) dy msv
  else mk ((k + 1) / 12) ((k + 1) mod 12) (dy - dim) msv.

(** [d.setMonth(m)], returning the date [d] becomes. *)
Definition setMonth (d : t) (m : Z) : t :=
  ofMonthDay (12 * year d + m) (day d) (ms d).

(** [a < b], [a <= b], [a >= b] on dates compare time values. *)
Definition ltb (a b : t) : bool := getTime a <? getTime b.
Definition leb (a b : t) : bool := getTime a <=? getTime b.
Definition geb (a b : t) : bool := getTime b <=? getTime a.

(** The fields of a date that a [Date] object can show. *)
Definition valid (d : t) : Prop :=
  0 <= month d <= 11 /\ 1 <= day d <= daysInMonth (year d) (month d)
  /\ 0 <= ms d < msPerDay.

Definition validb (d : t) : bool :=
  (0 <=? month d) && (month d <=? 11) && (1 <=? day d)
  && (day d <=? daysInMonth (year d) (month d))
  && (0 <=? ms d) && (ms d <? msPerDay).

(** [new Date('YYYY-MM-DD')]: midnight UTC of that day ([m] from 1). *)
Definition ymd (y m dy : Z) : t := mk y (m - 1) dy 0.

(** [d.toISOString().split('T')[0]]: the text [YYYY-MM-DD], kept as the
    three numbers it prints. *)
Definition isoDate (d : t) : Z * Z * Z := (year d, month d + 1, day d).

Definition isoDate_eqb (a b : Z * Z * Z) : bool :=
  let '(y1, m1, d1) := a in
  let '(y2, m2, d2) := b in
  (y1 =? y2) && (m1 =? m2) && (d1 =? d2).

End Date.

(** ** Tables (db/schema) *)

Inductive ExtractionStatus := pending | success | error.
Inductive UploadStatus := processing | completed | failed.

Definition ExtractionStatus_eqb (a b : ExtractionStatus) : bool :=
  match a, b with
  | pending, pending | success, success | error, error => true
  | _, _ => false
  end.

(** A row of [upload_batches]. *)
Module Batch.
Record t := mk {
  id : Z;
  filename : string;
  total_files : Z;
  processed_files : Z;
  failed_files : Z;
  status : UploadStatus;
  created_at : Date.t;
  completed_at : option Date.t
}.
End Batch.

(** A row of [electricity_bills].  The [numeric] columns reach the handlers
    as text or [null]; a row keeps the number that text reads as
    ([parseFloat]), [None] for [null]. *)
Module BillRow.
Record t := mk {
  id : Z;
  filename : string;
  upload_id : Z;
  total_amount : option float;
  energy_consumption : option float;
  bill_date : option Date.t;
  corrected_amount : option float;
  extraction_status : ExtractionStatus;
  error_message : option string;
  created_at : Date.t
}.
End BillRow.

(** A row of [selic_rates]; also the [SelicRate] the handlers pass around,
    once [rate] is a number. *)
Module SelicRate.
Record t := mk {
  id : Z;
  date : Date.t;
  rate : float;
  created_at : Date.t
}.
End SelicRate.

Record DB := mkDB {
  uploadBatchesTable : list Batch.t;
  electricityBillsTable : list BillRow.t;
  selicRatesTable : list SelicRate.t;
  (** the [serial] counters of the three tables *)
  nextBatchId : Z;
  nextBillId : Z;
  nextRateId : Z
}.

Definition emptyDB : DB := mkDB [] [] [] 1 1 1.

(** ** Types of the handlers (schema.ts) *)

Module ElectricityBill.
(** [bill_date] is a [Date] in the schema; [calculateSelicCorrection]
    tests it for absence, so it is optional here. *)
Record t := mk {
  id : Z;
  filename : string;
  upload_id : Z;
  total_amount : float;
  energy_consumption : float;
  bill_date : option Date.t;
  corrected_amount : option float;
  extraction_status : ExtractionStatus;
  error_message : option string;
  created_at : Date.t
}.
End ElectricityBill.

Module UploadZipInput.
Record t := mk { filename : string; file_size : Z; file_count : Z }.
End UploadZipInput.

Module UploadResponse.
Record t := mk { upload_id : Z; message : string; status : string }.
End UploadResponse.

Module ProcessBillInput.
Record t := mk { upload_id : Z; filename : string; file_buffer : string }.
End ProcessBillInput.

(** An optional field is [None] when it is [undefined]; a nullable optional
    one is [Some None] when it is [null]. *)
Module UpdateBillResultInput.
Record t := mk {
  id : Z;
  total_amount : option float;
  energy_consumption : option float;
  bill_date : option Date.t;
  corrected_amount : option (option float);
  extraction_status : ExtractionStatus;
  error_message : option (option string)
}.
End UpdateBillResultInput.

Inductive ReportFormat := excel | csv.

Module GenerateReportInput.
Record t := mk { upload_id : Z; format : ReportFormat }.
End GenerateReportInput.

Module Summary.
Record t := mk {
  total_bills : Z;
  successful_extractions : Z;
  failed_extractions : Z;
  total_original_amount : float;
  total_corrected_amount : float;
  total_energy_consumption : float
}.
End Summary.

Module ConsolidatedReport.
Record t := mk { bills : list ElectricityBill.t; summary : Summary.t }.
End ConsolidatedReport.

Module LoadResult.
Record t := mk { loaded : Z; skipped : Z; errors : Z }.
End LoadResult.

(** ** Handlers as database transformers *)

Inductive Exception :=
| Error (message : string)   (** [new Error(message)] *)
| TypeError                  (** a property read on [undefined] *)
| DbError.                   (** the database rejected a statement *)

Inductive Outcome (A : Type) :=
| Returned (a : A)
| Thrown (e : Exception).
Arguments Returned {A} a.
Arguments Thrown {A} e.

Definition Db (A : Type) : Type := DB -> Outcome A * DB.

Definition ret {A} (a : A) : Db A := fun db => (Returned a, db).

Definition throw {A} (e : Exception) : Db A := fun db => (Thrown e, db).

Definition bind {A B} (m : Db A) (k : A -> Db B) : Db B :=
  fun db =>
    match m db with
    | (Returned a, db') => k a db'
    | (Thrown e, db') => (Thrown e, db')
    end.

(** [try { m } catch (e) { h(e) }] *)
Definition try_catch {A} (m : Db A) (h : Exception -> Db A) : Db A :=
  fun db =>
    match m db with
    | (Returned a, db') => (Returned a, db')
    | (Thrown e, db') => h e db'
    end.

(** [catch (error) { console.error(...); throw error; }] *)
Definition rethrow {A} (m : Db A) : Db A := try_catch m (fun e => throw e).

Declare Scope db_scope.
Delimit Scope db_scope with db.
Notation "x <- m ;; k" := (bind m (fun x => k))
  (at level 61, m at next level, right associativity) : db_scope.
Notation "m ;;; k" := (bind m (fun _ => k))
  (at level 61, right associativity) : db_scope.
Open Scope db_scope.

(** What the handlers take from the platform they run on. *)
Class Platform := {
  (** [pg_numeric p s x]: the number read back from a [numeric(p, s)] column
      after [x.toString()] was written to it, [None] when PostgreSQL rejects
      the value. *)
  pg_numeric : Z -> Z -> float -> option float;
  (** [new Date(text)], [None] for an Invalid Date. *)
  Date_parse : string -> option Date.t;
  (** [parseFloat(text)]. *)
  parseFloat : string -> float
}.

(** ** The month map of [calculateAccumulatedCorrection] *)

Module MonthMap.

(** A [Map] from the month key [`${year}-${month}`], kept as the pair of
    the two numbers, to a rate; entries in insertion order. *)
Definition t := list ((Z * Z) * float).

Definition key_eqb (a b : Z * Z) : bool :=
  (fst a =? fst b) && (snd a =? snd b).

Definition empty : t := [].

(** [map.set(k, v)]: replaces the value of an existing key in place,
    otherwise adds the entry at the end. *)
Fixpoint set (k : Z * Z) (v : float) (m : t) : t :=
  match m with
  | [] => [(k, v)]
  | (k', v') :: m' =>
      if key_eqb k' k then (k', v) :: m' else (k', v') :: set k v m'
  end.

(** [map.get(k)], [None] for [undefined]. *)
Fixpoint get (k : Z * Z) (m : t) : option float :=
  match m with
  | [] => None
  | (k', v') :: m' => if key_eqb k' k then Some v' else get k m'
  end.

End MonthMap.

(** ** Statements on the tables *)

Section Statements.

Context {P : Platform}.

(** Writing a number to a [numeric(p, s)] column. *)
Definition to_numeric (p s : Z) (x : float) : Db float :=
  match pg_numeric p s x with
  | Some v => ret v
  | None => throw DbError
  end.

Definition writeDb (f : DB -> DB) : Db unit := fun db => (Returned tt, f db).

Definition readDb {A} (f : DB -> A) : Db A := fun db => (Returned (f db), db).

(** [db.select().from(uploadBatchesTable).where(eq(id, x))] *)
Definition selectBatchesById (x : Z) : Db (list Batch.t) :=
  readDb (fun db => filter (fun b => Batch.id b =? x) (uploadBatchesTable db)).

(** [db.select().from(electricityBillsTable).where(eq(id, x))] *)
Definition selectBillsById (x : Z) : Db (list BillRow.t) :=
  readDb (fun db => filter (fun b => BillRow.id b =? x) (electricityBillsTable db)).

(** [db.select().from(electricityBillsTable).where(eq(upload_id, x))] *)
Definition selectBillsByUpload (x : Z) : Db (list BillRow.t) :=
  readDb (fun db =>
    filter (fun b => BillRow.upload_id b =? x) (electricityBillsTable db)).

(** An [integer] column holds the 32-bit integers: PostgreSQL rejects a
    statement that writes any other number to it ('out of range for type
    integer'), and nothing is written. *)
Definition pg_integer (x : Z) : bool :=
  (-2147483648 <=? x) && (x <=? 2147483647).

(** [db.insert(uploadBatchesTable).values({...}).returning()]: the row gets
    the next id, [created_at] from the clock and no [completed_at].  The
    three counters go to [integer] columns. *)
Definition insertBatch (now : Date.t) (filename : string)
    (total processed failed : Z) (st : UploadStatus) : Db Batch.t :=
  fun db =>
    if pg_integer total && pg_integer processed && pg_integer failed then
      let row := Batch.mk (nextBatchId db) filename total processed failed st
                          now None in
      (Returned row,
       mkDB (uploadBatchesTable db ++ [row]) (electricityBillsTable db)
            (selicRatesTable db) (nextBatchId db + 1) (nextBillId db)
            (nextRateId db))
    else (Thrown DbError, db).

(** A new bill row: every column not given is [null]. *)
Definition newBillRow (now : Date.t) (i : Z)
    (v : string * Z * ExtractionStatus) : BillRow.t :=
  let '(filename, upload, st) := v in
  BillRow.mk i filename upload None None None None st None now.

Fixpoint numberRows (now : Date.t) (i : Z)
    (vs : list (string * Z * ExtractionStatus)) : list BillRow.t :=
  match vs with
  | [] => []
  | v :: vs' => newBillRow now i v :: numberRows now (i + 1) vs'
  end.

(** [db.insert(electricityBillsTable).values(vs).returning()] *)
Definition insertBills (now : Date.t)
    (vs : list (string * Z * ExtractionStatus)) : Db (list BillRow.t) :=
  fun db =>
    let rows := numberRows now (nextBillId db) vs in
    (Returned rows,
     mkDB (uploadBatchesTable db) (electricityBillsTable db ++ rows)
          (selicRatesTable db) (nextBatchId db)
          (nextBillId db + Z.of_nat (List.length vs)) (nextRateId db)).

(** The object given to [.set(...)] on [electricityBillsTable]: a column
    left out is [None]; a column set to [null] is [Some None]. *)
Record BillSet := mkBillSet {
  set_total_amount : option float;
  set_energy_consumption : option float;
  set_bill_date : option Date.t;
  set_corrected_amount : option (option float);
  set_extraction_status : option ExtractionStatus;
  set_error_message : option (option string)
}.

Definition orKeep {A} (new : option A) (old : A) : A :=
  match new with Some v => v | None => old end.

Definition applyBillSet (s : BillSet) (r : BillRow.t) : BillRow.t :=
  BillRow.mk (BillRow.id r) (BillRow.filename r) (BillRow.upload_id r)
    (orKeep (option_map Some (set_total_amount s)) (BillRow.total_amount r))
    (orKeep (option_map Some (set_energy_consumption s))
            (BillRow.energy_consumption r))
    (orKeep (option_map Some (set_bill_date s)) (BillRow.bill_date r))
    (orKeep (set_corrected_amount s) (BillRow.corrected_amount r))
    (orKeep (set_extraction_status s) (BillRow.extraction_status r))
    (orKeep (set_error_message s) (BillRow.error_message r))
    (BillRow.created_at r).

(** The numbers of a [.set(...)] object as the [numeric(10, 2)] columns
    keep them; [None] when one of them is rejected. *)
Definition numericOpt (x : option float) : option (option float) :=
  match x with
  | Some v => option_map Some (pg_numeric 10 2 v)
  | None => Some None
  end.

Definition storedBillSet (s : BillSet) : option BillSet :=
  match numericOpt (set_total_amount s),
        numericOpt (set_energy_consumption s),
        match set_corrected_amount s with
        | Some (Some v) => option_map (fun w => Some (Some w)) (pg_numeric 10 2 v)
        | other => Some other
        end
  with
  | Some ta, Some ec, Some ca =>
      Some (mkBillSet ta ec (set_bill_date s) ca (set_extraction_status s)
                      (set_error_message s))
  | _, _, _ => None
  end.

(** The database after the rows of [electricityBillsTable] numbered [x]
    took the columns of [s]. *)
Definition withBillSet (x : Z) (s : BillSet) (db : DB) : DB :=
  mkDB (uploadBatchesTable db)
       (map (fun r => if BillRow.id r =? x then applyBillSet s r else r)
            (electricityBillsTable db))
       (selicRatesTable db) (nextBatchId db) (nextBillId db)
       (nextRateId db).

(** [db.update(electricityBillsTable).set(s).where(eq(id, x)).returning()] *)
Definition updateBillsById (x : Z) (s : BillSet) : Db (list BillRow.t) :=
  match storedBillSet s with
  | Some s' => writeDb (withBillSet x s') ;;; selectBillsById x
  | None => throw DbError
  end.

(** The object given to [.set(...)] on [uploadBatchesTable] by
    [updateUploadBatchProgress]: [completed_at] is in it only when the
    batch is complete. *)
Record BatchSet := mkBatchSet {
  set_processed_files : Z;
  set_failed_files : Z;
  set_status : UploadStatus;
  set_completed_at : option Date.t
}.

Definition applyBatchSet (s : BatchSet) (b : Batch.t) : Batch.t :=
  Batch.mk (Batch.id b) (Batch.filename b) (Batch.total_files b)
    (set_processed_files s) (set_failed_files s) (set_status s)
    (Batch.created_at b)
    (orKeep (option_map Some (set_completed_at s)) (Batch.completed_at b)).

(** [db.update(uploadBatchesTable).set(s).where(eq(id, x))]: the two
    counters go to [integer] columns. *)
Definition updateBatchesById (x : Z) (s : BatchSet) : Db unit :=
  if pg_integer (set_processed_files s) && pg_integer (set_failed_files s)
  then
    writeDb (fun db =>
      mkDB (map (fun b => if Batch.id b =? x then applyBatchSet s b else b)
                (uploadBatchesTable db))
           (electricityBillsTable db) (selicRatesTable db) (nextBatchId db)
           (nextBillId db) (nextRateId db))
  else throw DbError.

(** [db.insert(selicRatesTable).values({ date, rate: rate.toString() })] *)
Definition insertRate (now : Date.t) (d : Date.t) (r : float) : Db unit :=
  v <- to_numeric 6 4 r ;;
  writeDb (fun db =>
    mkDB (uploadBatchesTable db) (electricityBillsTable db)
         (selicRatesTable db ++ [SelicRate.mk (nextRateId db) d v now])
         (nextBatchId db) (nextBillId db) (nextRateId db + 1)).

(** [.orderBy(asc(selicRatesTable.date))]: rows of equal date keep their
    table order. *)
Fixpoint insertByDate (r : SelicRate.t) (l : list SelicRate.t)
    : list SelicRate.t :=
  match l with
  | [] => [r]
  | r' :: l' =>
      if Date.leb (SelicRate.date r) (SelicRate.date r') then r :: l
      else r' :: insertByDate r l'
  end.

Definition sortByDate (l : list SelicRate.t) : list SelicRate.t :=
  fold_right insertByDate [] l.

End Statements.

(** ** The handlers *)

Section Handlers.

Context {P : Platform}.

(** The text of an error, [e.message].  The texts of the platform's own
    errors are stand-ins. *)
Definition messageOf (e : Exception) : string :=
  match e with
  | Error m => m
  | TypeError => "Cannot read properties of undefined"
  | DbError => "Failed query"
  end.

(** [rows[0]], read for its properties. *)
Definition firstRow {A} (rows : list A) : Db A :=
  match rows with
  | r :: _ => ret r
  | [] => throw TypeError
  end.

(** [text ? parseFloat(text) : 0] and [parseFloat(text || '0')] on a
    numeric column. *)
Definition numberOrZero (x : option float) : float :=
  match x with Some v => v | None => 0%float end.

(** *** upload_zip.ts *)

(** [Array.from({ length: count }, (_, index) => ({...}))] *)
Definition placeholderBills (upload count : Z)
    : list (string * Z * ExtractionStatus) :=
  map (fun index =>
         (("bill_" ++ Js.string_of_Z (Z.of_nat index + 1) ++ ".pdf")%string,
          upload, pending))
      (seq 0 (Z.to_nat count)).

Definition uploadZip (now : Date.t) (input : UploadZipInput.t)
    : Db UploadResponse.t :=
  rethrow (
    uploadBatch <- insertBatch now (UploadZipInput.filename input)
                     (UploadZipInput.file_count input) 0 0 processing ;;
    let billRecords :=
      placeholderBills (Batch.id uploadBatch)
                       (UploadZipInput.file_count input) in
    (if (0 <? List.length billRecords)%nat
     then (_ <- insertBills now billRecords ;; ret tt)
     else ret tt) ;;;
    ret (UploadResponse.mk (Batch.id uploadBatch)
           ("ZIP file " ++ UploadZipInput.filename input
            ++ " uploaded successfully. Processing "
            ++ Js.string_of_Z (UploadZipInput.file_count input)
            ++ " files.")%string
           "processing")).

(** *** process_bill.ts *)

Record ExtractedData := mkExtracted {
  x_total_amount : float;
  x_energy_consumption : float;
  x_bill_date : Date.t
}.

Definition extractFromPDF (buffer : string) : Db ExtractedData :=
  let content := Js.take 1000 buffer in
  if Js.includes content "INVALID_PDF" then
    throw (Error "Invalid PDF format")
  else if Js.includes content "CORRUPTED_DATA" then
    throw (Error "Corrupted PDF data")
  else
    let simulatedAmount :=
      if Js.includes content "TEST_AMOUNT" then 156.78%float
      else 123.45%float in
    let simulatedConsumption :=
      if Js.includes content "TEST_CONSUMPTION" then 234%float
      else 180%float in
    let simulatedDate :=
      if Js.includes content "TEST_DATE" then Date.ymd 2023 8 15
      else Date.ymd 2023 7 15 in
    ret (mkExtracted simulatedAmount simulatedConsumption simulatedDate).

Definition extractFromImage (buffer : string) : Db ExtractedData :=
  let content := Js.take 1000 buffer in
  if Js.includes content "UNREADABLE_IMAGE" then
    throw (Error "Image text is unreadable")
  else if Js.includes content "LOW_QUALITY" then
    throw (Error "Image quality too low for OCR")
  else
    let simulatedAmount :=
      if Js.includes content "OCR_AMOUNT" then 98.76%float
      else 87.65%float in
    let simulatedConsumption :=
      if Js.includes content "OCR_CONSUMPTION" then 156%float
      else 145%float in
    let simulatedDate :=
      if Js.includes content "OCR_DATE" then Date.ymd 2023 9 20
      else Date.ymd 2023 6 20 in
    ret (mkExtracted simulatedAmount simulatedConsumption simulatedDate).

Definition imageExtensions : list string :=
  ["jpg"; "jpeg"; "png"; "tiff"; "bmp"]%string.

(** The bill a handler returns from a row: absent numbers become [0], an
    absent bill date becomes the current time, the corrected amount stays
    nullable. *)
Definition billOfRow (now : Date.t) (r : BillRow.t) : ElectricityBill.t :=
  ElectricityBill.mk (BillRow.id r) (BillRow.filename r)
    (BillRow.upload_id r)
    (numberOrZero (BillRow.total_amount r))
    (numberOrZero (BillRow.energy_consumption r))
    (Some (match BillRow.bill_date r with Some d => d | None => now end))
    (BillRow.corrected_amount r)
    (BillRow.extraction_status r) (BillRow.error_message r)
    (BillRow.created_at r).

Definition processBill (now : Date.t) (input : ProcessBillInput.t)
    : Db ElectricityBill.t :=
  rethrow (
    uploadBatch <- selectBatchesById (ProcessBillInput.upload_id input) ;;
    if (List.length uploadBatch =? 0)%nat then
      throw (Error ("Upload batch with ID "
                    ++ Js.string_of_Z (ProcessBillInput.upload_id input)
                    ++ " not found")%string)
    else
      billResult <- insertBills now
                      [(ProcessBillInput.filename input,
                        ProcessBillInput.upload_id input, pending)] ;;
      created <- firstRow billResult ;;
      let billId := BillRow.id created in
      try_catch (
        let fileExtension :=
          Js.pop (Js.split "." (Js.toLowerCase
                                  (ProcessBillInput.filename input))) in
        extractedData <-
          (if String.eqb fileExtension "pdf" then
             extractFromPDF (ProcessBillInput.file_buffer input)
           else if existsb (String.eqb fileExtension) imageExtensions then
             extractFromImage (ProcessBillInput.file_buffer input)
           else
             throw (Error ("Unsupported file type: " ++ fileExtension)%string)) ;;
        updatedBill <- updateBillsById billId
                         (mkBillSet (Some (x_total_amount extractedData))
                                    (Some (x_energy_consumption extractedData))
                                    (Some (x_bill_date extractedData))
                                    None (Some success) (Some None)) ;;
        result <- firstRow updatedBill ;;
        ret (billOfRow now result))
      (fun extractionError =>
        let errorMessage := messageOf extractionError in
        updatedBill <- updateBillsById billId
                         (mkBillSet None None None None (Some error)
                                    (Some (Some errorMessage))) ;;
        result <- firstRow updatedBill ;;
        ret (billOfRow now result))).

(** *** update_bill_result.ts *)

Definition updateUploadBatchProgress (now : Date.t) (uploadId : Z)
    (isSuccess : bool) : Db unit :=
  rethrow (
    batches <- selectBatchesById uploadId ;;
    match batches with
    | [] =>
        throw (Error ("Upload batch with ID " ++ Js.string_of_Z uploadId
                      ++ " not found")%string)
    | batch :: _ =>
        let newProcessedFiles := Batch.processed_files batch + 1 in
        let newFailedFiles :=
          Batch.failed_files batch + (if isSuccess then 0 else 1) in
        let isComplete := Batch.total_files batch <=? newProcessedFiles in
        let newStatus := if isComplete then completed else processing in
        updateBatchesById uploadId
          (mkBatchSet newProcessedFiles newFailedFiles newStatus
                      (if isComplete then Some now else None))
    end).

(** [updateData] of [updateBillResult]: the status always, the other
    columns when the input has them; a corrected amount that is [null],
    [0] or [NaN] is stored as [null]. *)
Definition updateDataOf (input : UpdateBillResultInput.t) : BillSet :=
  mkBillSet
    (UpdateBillResultInput.total_amount input)
    (UpdateBillResultInput.energy_consumption input)
    (UpdateBillResultInput.bill_date input)
    (match UpdateBillResultInput.corrected_amount input with
     | None => None
     | Some None => Some None
     | Some (Some v) => if Js.truthy v then Some (Some v) else Some None
     end)
    (Some (UpdateBillResultInput.extraction_status input))
    (UpdateBillResultInput.error_message input).

Definition updateBillResult (now : Date.t) (input : UpdateBillResultInput.t)
    : Db ElectricityBill.t :=
  rethrow (
    existingBills <- selectBillsById (UpdateBillResultInput.id input) ;;
    match existingBills with
    | [] =>
        throw (Error ("Bill with ID "
                      ++ Js.string_of_Z (UpdateBillResultInput.id input)
                      ++ " not found")%string)
    | existingBill :: _ =>
        updatedBills <- updateBillsById (UpdateBillResultInput.id input)
                          (updateDataOf input) ;;
        let wasSuccessful :=
          ExtractionStatus_eqb
            (UpdateBillResultInput.extraction_status input) success in
        let wasPending :=
          ExtractionStatus_eqb (BillRow.extraction_status existingBill)
                               pending in
        (if wasPending then
           updateUploadBatchProgress now (BillRow.upload_id existingBill)
                                     wasSuccessful
         else ret tt) ;;;
        updatedBill <- firstRow updatedBills ;;
        ret (billOfRow now updatedBill)
    end).

End Handlers.

Section Correction.

Context {P : Platform}.

(** *** calculate_selic_correction.ts *)

Definition getSelicRatesForPeriod (startDate endDate : Date.t)
    : Db (list SelicRate.t) :=
  rethrow (
    readDb (fun db =>
      sortByDate
        (filter (fun r => Date.geb (SelicRate.date r) startDate
                          && Date.leb (SelicRate.date r) endDate)
                (selicRatesTable db)))).

(** [`${date.getFullYear()}-${date.getMonth()}`] *)
Definition monthKey (d : Date.t) : Z * Z :=
  (Date.getFullYear d, Date.getMonth d).

(** The map built by [selicRates.forEach(...)]. *)
Definition monthlyRatesOf (selicRates : list SelicRate.t) : MonthMap.t :=
  fold_left (fun m rate =>
               MonthMap.set (monthKey (SelicRate.date rate))
                            (SelicRate.rate rate) m)
            selicRates MonthMap.empty.

(** [monthlyRates.get(monthKey) || 0] *)
Definition monthlyRateAt (monthlyRates : MonthMap.t) (current : Date.t)
    : float :=
  match MonthMap.get (monthKey current) monthlyRates with
  | Some r => Js.or_zero r
  | None => 0%float
  end.

(** The [while (current < end)] loop, on the date [current] and the factor
    reached so far.  [fuel] bounds the number of times the condition is
    tested; [walk_exits] shows the bound [walkFuel] is never reached. *)
Fixpoint walk (fuel : nat) (monthlyRates : MonthMap.t)
    (current end_ : Date.t) (correctionFactor : float) : float :=
  match fuel with
  | O => correctionFactor
  | S fuel' =>
      if Date.ltb current end_ then
        let monthlyRate := monthlyRateAt monthlyRates current in
        walk fuel' monthlyRates
             (Date.setMonth current (Date.getMonth current + 1)) end_
             (correctionFactor * (1 + monthlyRate))%float
      else correctionFactor
  end.

(** A month has at least 28 days, so the loop body runs at most once per
    28 days between the two dates. *)
Definition walkFuel (startDate endDate : Date.t) : nat :=
  Z.to_nat ((Date.getTime endDate - Date.getTime startDate)
            / (28 * Date.msPerDay)) + 2.

Definition calculateAccumulatedCorrection (selicRates : list SelicRate.t)
    (startDate endDate : Date.t) : float :=
  if (List.length selicRates =? 0)%nat then 1%float
  else
    let monthlyRates := monthlyRatesOf selicRates in
    walk (walkFuel startDate endDate) monthlyRates startDate endDate 1%float.

(** The bill [calculateSelicCorrection] returns from the updated row: the
    corrected amount is read with [parseFloat(text || '0')]. *)
Definition correctedBillOfRow (now : Date.t) (r : BillRow.t)
    : ElectricityBill.t :=
  ElectricityBill.mk (BillRow.id r) (BillRow.filename r)
    (BillRow.upload_id r)
    (numberOrZero (BillRow.total_amount r))
    (numberOrZero (BillRow.energy_consumption r))
    (Some (match BillRow.bill_date r with Some d => d | None => now end))
    (Some (numberOrZero (BillRow.corrected_amount r)))
    (BillRow.extraction_status r) (BillRow.error_message r)
    (BillRow.created_at r).

(** The three places that store a corrected amount and return the bill. *)
Definition storeCorrected (now : Date.t) (billId : Z) (amount : float)
    : Db ElectricityBill.t :=
  updateResult <- updateBillsById billId
                    (mkBillSet None None None (Some (Some amount)) None None) ;;
  updatedBill <- firstRow updateResult ;;
  ret (correctedBillOfRow now updatedBill).

(** [now] is what [new Date()] returns during the call. *)
Definition calculateSelicCorrection (now : Date.t) (bill : ElectricityBill.t)
    : Db ElectricityBill.t :=
  rethrow (
    match ElectricityBill.bill_date bill with
    | None =>
        throw (Error "Bill date and total amount are required for SELIC correction")
    | Some date =>
        if negb (Js.truthy (ElectricityBill.total_amount bill)) then
          throw (Error "Bill date and total amount are required for SELIC correction")
        else
          let billDate := date in
          let currentDate := now in
          if Date.geb billDate currentDate then
            storeCorrected now (ElectricityBill.id bill)
                           (ElectricityBill.total_amount bill)
          else
            selicRates <- getSelicRatesForPeriod billDate currentDate ;;
            if (List.length selicRates =? 0)%nat then
              storeCorrected now (ElectricityBill.id bill)
                             (ElectricityBill.total_amount bill)
            else
              let correctionFactor :=
                calculateAccumulatedCorrection selicRates billDate
                                               currentDate in
              let correctedAmount :=
                (ElectricityBill.total_amount bill * correctionFactor)%float in
              storeCorrected now (ElectricityBill.id bill) correctedAmount
    end).

(** *** generate_report.ts *)

Definition isSuccess (b : ElectricityBill.t) : bool :=
  ExtractionStatus_eqb (ElectricityBill.extraction_status b) success.

Definition isError (b : ElectricityBill.t) : bool :=
  ExtractionStatus_eqb (ElectricityBill.extraction_status b) error.

(** [bill.corrected_amount || bill.total_amount || 0] *)
Definition correctedOrTotal (b : ElectricityBill.t) : float :=
  match ElectricityBill.corrected_amount b with
  | Some c => if Js.truthy c then c
              else Js.or_zero (ElectricityBill.total_amount b)
  | None => Js.or_zero (ElectricityBill.total_amount b)
  end.

(** [bills.reduce((sum, bill) => sum + f(bill), 0)] *)
Definition sumOver (f : ElectricityBill.t -> float)
    (bills : list ElectricityBill.t) : float :=
  fold_left (fun sum bill => (sum + f bill)%float) bills 0%float.

Definition summaryOf (convertedBills : list ElectricityBill.t) : Summary.t :=
  let totalBills := Z.of_nat (List.length convertedBills) in
  let successfulExtractions :=
    Z.of_nat (List.length (filter isSuccess convertedBills)) in
  let failedExtractions :=
    Z.of_nat (List.length (filter isError convertedBills)) in
  let successfulBills := filter isSuccess convertedBills in
  let totalOriginalAmount :=
    sumOver (fun bill => Js.or_zero (ElectricityBill.total_amount bill))
            successfulBills in
  let totalCorrectedAmount := sumOver correctedOrTotal successfulBills in
  let totalEnergyConsumption :=
    sumOver (fun bill => Js.or_zero (ElectricityBill.energy_consumption bill))
            successfulBills in
  Summary.mk totalBills successfulExtractions failedExtractions
             totalOriginalAmount totalCorrectedAmount totalEnergyConsumption.

Definition generateReport (now : Date.t) (input : GenerateReportInput.t)
    : Db ConsolidatedReport.t :=
  rethrow (
    uploadBatch <- selectBatchesById (GenerateReportInput.upload_id input) ;;
    if (List.length uploadBatch =? 0)%nat then
      throw (Error ("Upload batch with ID "
                    ++ Js.string_of_Z (GenerateReportInput.upload_id input)
                    ++ " not found")%string)
    else
      bills <- selectBillsByUpload (GenerateReportInput.upload_id input) ;;
      let convertedBills := map (billOfRow now) bills in
      ret (ConsolidatedReport.mk convertedBills (summaryOf convertedBills))).

(** *** load_selic_data.ts *)

(** The counters of the loop over the lines and the set of date keys
    already in the table. *)
Record LoadState := mkLoadState {
  loaded : Z;
  skipped : Z;
  errors : Z;
  existingDates : list (Z * Z * Z)
}.

Definition hasDate (k : Z * Z * Z) (s : list (Z * Z * Z)) : bool :=
  existsb (Date.isoDate_eqb k) s.

Definition countError (st : LoadState) : LoadState :=
  mkLoadState (loaded st) (skipped st) (errors st + 1) (existingDates st).

Definition countSkipped (st : LoadState) : LoadState :=
  mkLoadState (loaded st) (skipped st + 1) (errors st) (existingDates st).

Definition countLoaded (k : Z * Z * Z) (st : LoadState) : LoadState :=
  mkLoadState (loaded st + 1) (skipped st) (errors st)
              (existingDates st ++ [k]).

(** A column of a line is usable when it is there and not empty. *)
Definition column (cols : list string) (n : nat) : option string :=
  match nth_error cols n with
  | Some s => if Js.nonempty s then Some s else None
  | None => None
  end.

(** The body of [for (const line of dataLines)]. *)
Definition loadLine (now : Date.t) (st : LoadState) (line : string)
    : Db LoadState :=
  try_catch (
    let cols := map Js.trim (Js.split "," line) in
    match column cols 0, column cols 1 with
    | Some dateStr, Some rateStr =>
        let rate := parseFloat rateStr in
        match Date_parse dateStr with
        | Some date =>
            if Js.isNaN rate then ret (countError st)
            else
              let dateKey := Date.isoDate date in
              if hasDate dateKey (existingDates st) then
                ret (countSkipped st)
              else
                insertRate now date rate ;;;
                ret (countLoaded dateKey st)
        | None => ret (countError st)
        end
    | _, _ => ret (countError st)
    end)
  (fun _ => ret (countError st)).

Fixpoint loadLines (now : Date.t) (st : LoadState) (dataLines : list string)
    : Db LoadState :=
  match dataLines with
  | [] => ret st
  | line :: rest => (st' <- loadLine now st line ;; loadLines now st' rest)
  end.

(** [csvContent.split('\n').filter(line => line.trim()).slice(1)] *)
Definition dataLinesOf (csvContent : string) : list string :=
  tl (filter (fun line => Js.nonempty (Js.trim line))
             (Js.split "010" csvContent)).

(** [file] is the text of [data/selic_rates.csv], [None] when the file
    does not exist. *)
Definition loadSelicData (now : Date.t) (file : option string)
    : Db LoadResult.t :=
  rethrow (
    match file with
    | None => ret (LoadResult.mk 0 0 1)
    | Some csvContent =>
        let dataLines := dataLinesOf csvContent in
        existingRates <- readDb selicRatesTable ;;
        let existingDates :=
          map (fun r => Date.isoDate (SelicRate.date r)) existingRates in
        st <- loadLines now (mkLoadState 0 0 0 existingDates) dataLines ;;
        ret (LoadResult.mk (loaded st) (skipped st) (errors st))
    end).

End Correction.

(** ** The query handlers *)

Module GetUploadStatusInput.
Record t := mk { upload_id : Z }.
End GetUploadStatusInput.

Module UploadStatusResponse.
Record t := mk { upload : Batch.t; bills : list ElectricityBill.t }.
End UploadStatusResponse.

Section Queries.

Context {P : Platform}.

(** *** get_upload_status.ts *)


(** *** load_selic_data.ts: the two queries *)

(** [.orderBy(selicRatesTable.date)] *)
Definition getAllSelicRates : Db (list SelicRate.t) :=
  rethrow (readDb (fun db => sortByDate (selicRatesTable db))).

(** [.orderBy(desc(selicRatesTable.date))]: rows of equal date keep their
    table order. *)
Fixpoint insertByDateDesc (r : SelicRate.t) (l : list SelicRate.t)
    : list SelicRate.t :=
  match l with
  | [] => [r]
  | r' :: l' =>
      if Date.geb (SelicRate.date r) (SelicRate.date r') then r :: l
      else r' :: insertByDateDesc r l'
  end.

Definition sortByDateDesc (l : list SelicRate.t) : list SelicRate.t :=
  fold_right insertByDateDesc [] l.

(** [.orderBy(desc(date)).limit(1)], then [null] for no row. *)
Definition getLatestSelicRate : Db (option SelicRate.t) :=
  rethrow (
    results <- readDb (fun db =>
                 firstn 1 (sortByDateDesc (selicRatesTable db))) ;;
    match results with
    | [] => ret None
    | rate :: _ => ret (Some rate)
    end).

End Queries.

(** ** The loop of the correction, as a relation *)

Section CorrectionSpec.

Context {P : Platform}.

(** [Loop monthlyRates end_ current f r]: started on the date [current]
    with the factor [f], the [while (current < end)] loop of
    [calculateAccumulatedCorrection] stops with the factor [r]. *)
Inductive Loop (monthlyRates : MonthMap.t) (end_ : Date.t)
    : Date.t -> float -> float -> Prop :=
| Loop_exit current f :
    Date.ltb current end_ = false ->
    Loop monthlyRates end_ current f f
| Loop_step current f r :
    Date.ltb current end_ = true ->
    Loop monthlyRates end_
         (Date.setMonth current (Date.getMonth current + 1))
         (f * (1 + monthlyRateAt monthlyRates current))%float r ->
    Loop monthlyRates end_ current f r.

(** The rate of the last entry of [selicRates] dated in the month [key],
    if there is one. *)
Definition lastRateOf (selicRates : list SelicRate.t) (key : Z * Z)
    : option float :=
  fold_left (fun found r =>
               if MonthMap.key_eqb (monthKey (SelicRate.date r)) key
               then Some (SelicRate.rate r) else found)
            selicRates None.

(** The rate a month contributes: the rate of the last entry dated in it,
    and 0 when there is none (or when that rate is 0 or not a number). *)
Definition rateOfMonth (selicRates : list SelicRate.t) (key : Z * Z)
    : float :=
  match lastRateOf selicRates key with
  | Some r => Js.or_zero r
  | None => 0%float
  end.

(** Year and month of the month numbered [k]. *)
Definition monthOfIndex (k : Z) : Z * Z := (k / 12, k mod 12).

(** The product of [1 + rate] over the [n] months from month [k],
    multiplied in that order onto [f]. *)
Fixpoint compoundFrom (selicRates : list SelicRate.t) (k : Z) (n : nat)
    (f : float) : float :=
  match n with
  | O => f
  | S n' =>
      compoundFrom selicRates (k + 1) n'
        (f * (1 + rateOfMonth selicRates (monthOfIndex k)))%float
  end.

(** Position of a date within its month, in milliseconds. *)
Definition withinMonth (d : Date.t) : Z :=
  (Date.day d - 1) * Date.msPerDay + Date.ms d.

(** The months the loop goes through between two dates: those from the
    month of [startDate] to the month before that of [endDate], and the
    month of [endDate] too when [startDate] lies earlier in its month
    than [endDate] does in its own. *)
Definition monthsTraversed (startDate endDate : Date.t) : nat :=
  Z.to_nat (Date.monthIndex endDate - Date.monthIndex startDate
            + (if withinMonth startDate <? withinMonth endDate then 1 else 0)).

(** Following the specification: the months from the month of the origin
    date up to, but not including, the month of the as-of date. *)
Definition spec_monthsTraversed (originDate asOfDate : Date.t) : nat :=
  Z.to_nat (Date.monthIndex asOfDate - Date.monthIndex originDate).

(** Following the specification: principal times the factor over those
    months. *)
Definition spec_correct (selicRates : list SelicRate.t) (principal : float)
    (originDate asOfDate : Date.t) : float :=
  (principal
   * compoundFrom selicRates (Date.monthIndex originDate)
                  (spec_monthsTraversed originDate asOfDate) 1)%float.

(** The rates [calculateSelicCorrection] fetches: those dated from the
    bill date to the current time, by date. *)
Definition ratesInPeriod (db : DB) (startDate endDate : Date.t)
    : list SelicRate.t :=
  sortByDate
    (filter (fun r => Date.geb (SelicRate.date r) startDate
                      && Date.leb (SelicRate.date r) endDate)
            (selicRatesTable db)).

(** The amount [calculateSelicCorrection] stores for a principal [p] and a
    bill date, at the time [now] and with the rates table [rates]. *)
Definition correctedAmountOf (now : Date.t) (rates : list SelicRate.t)
    (p : float) (date : Date.t) : float :=
  if Date.geb date now then p
  else
    let selicRates :=
      sortByDate
        (filter (fun r => Date.geb (SelicRate.date r) date
                          && Date.leb (SelicRate.date r) now) rates) in
    if (List.length selicRates =? 0)%nat then p
    else (p * calculateAccumulatedCorrection selicRates date now)%float.

(** The error of the input check of [calculateSelicCorrection]. *)
Definition requiredError : Exception :=
  Error "Bill date and total amount are required for SELIC correction".

(** The database after [corrected_amount] of the rows numbered [x] is set
    to [v]. *)
Definition withCorrected (x : Z) (v : float) (db : DB) : DB :=
  withBillSet x (mkBillSet None None None (Some (Some v)) None None) db.


End CorrectionSpec.

(** A handler that leaves the batches table as it found it, whatever it
    returns or throws. *)
Definition keepsBatches {A} (m : Db A) : Prop :=
  forall db, uploadBatchesTable (snd (m db)) = uploadBatchesTable db.

(** A batch row whose two counters are 32-bit integers below the largest
    one: the [integer] columns can take one more outcome. *)
Definition countable (b : Batch.t) : Prop :=
  -2147483648 <= Batch.processed_files b < 2147483647
  /\ -2147483648 <= Batch.failed_files b < 2147483647.

(** The batch a call of [uploadZip] inserts. *)
Definition newBatch (now : Date.t) (db : DB) (input : UploadZipInput.t)
    : Batch.t :=
  Batch.mk (nextBatchId db) (UploadZipInput.filename input)
           (UploadZipInput.file_count input) 0 0 processing now None.

(** ** The report, from the rows of the batch *)

Section ReportSpec.

(** Number of rows in the status [st]. *)
Fixpoint countStatus (st : ExtractionStatus) (rows : list BillRow.t) : Z :=
  match rows with
  | [] => 0
  | r :: rows' =>
      (if ExtractionStatus_eqb (BillRow.extraction_status r) st then 1 else 0)
      + countStatus st rows'
  end.

(** [acc] plus the amounts [f r] of the rows [r] in status 'success',
    added in the order of the rows. *)
Fixpoint addSuccessful (f : BillRow.t -> float) (rows : list BillRow.t)
    (acc : float) : float :=
  match rows with
  | [] => acc
  | r :: rows' =>
      addSuccessful f rows'
        (match BillRow.extraction_status r with
         | success => (acc + f r)%float
         | _ => acc
         end)
  end.

(** A stored number as the sums take it: 0 when it is absent, zero or
    NaN. *)
Definition amountOrZero (x : option float) : float :=
  match x with
  | Some v => Js.or_zero v
  | None => 0%float
  end.

(** The corrected amount of a row, and its total amount when the corrected
    amount is absent, zero or NaN. *)
Definition correctedOrTotalOfRow (r : BillRow.t) : float :=
  match BillRow.corrected_amount r with
  | Some c => if Js.truthy c then c else amountOrZero (BillRow.total_amount r)
  | None => amountOrZero (BillRow.total_amount r)
  end.

(** Following the specification: the corrected amount of a row, and its
    total amount when the corrected amount is absent. *)
Definition spec_correctedOfRow (r : BillRow.t) : float :=
  match BillRow.corrected_amount r with
  | Some c => c
  | None => amountOrZero (BillRow.total_amount r)
  end.

End ReportSpec.

(** ** The load of the rates, line by line *)

Section LoadSpec.

Context {P : Platform}.

(** What becomes of a line. *)
Inductive LineOutcome :=
| LineLoaded (date : Date.t) (rate : float)  (** inserted, with the rate as stored *)
| LineSkipped                                (** its date is already there *)
| LineFailed.                                (** counted as an error *)

(** The outcome of a line, given the date keys already there: an error
    when a column is missing or empty, when the date or the rate does not
    parse, or when the table rejects the rate; skipped when the calendar
    date is already there; loaded otherwise. *)
Definition lineOutcome (existing : list (Z * Z * Z)) (line : string)
    : LineOutcome :=
  match map Js.trim (Js.split "," line) with
  | dateStr :: rateStr :: _ =>
      if Js.nonempty dateStr && Js.nonempty rateStr then
        match Date_parse dateStr with
        | None => LineFailed
        | Some date =>
            if is_nan (parseFloat rateStr) then LineFailed
            else if hasDate (Date.isoDate date) existing then LineSkipped
            else match pg_numeric 6 4 (parseFloat rateStr) with
                 | Some v => LineLoaded date v
                 | None => LineFailed
                 end
        end
      else LineFailed
  | _ => LineFailed
  end.

(** The outcomes of the lines in turn; a loaded line adds its date to the
    keys the later lines are compared with. *)
Fixpoint lineOutcomes (existing : list (Z * Z * Z)) (lines : list string)
    : list LineOutcome :=
  match lines with
  | [] => []
  | line :: rest =>
      let o := lineOutcome existing line in
      o :: lineOutcomes
             (match o with
              | LineLoaded date _ => existing ++ [Date.isoDate date]
              | _ => existing
              end) rest
  end.

Definition isLoaded (o : LineOutcome) : bool :=
  match o with LineLoaded _ _ => true | _ => false end.
Definition isSkipped (o : LineOutcome) : bool :=
  match o with LineSkipped => true | _ => false end.
Definition isFailed (o : LineOutcome) : bool :=
  match o with LineFailed => true | _ => false end.

Definition countOf (p : LineOutcome -> bool) (os : list LineOutcome) : Z :=
  Z.of_nat (List.length (filter p os)).

(** The rows the loaded lines add to the table, numbered from [i]. *)
Fixpoint loadedRows (now : Date.t) (i : Z) (os : list LineOutcome)
    : list SelicRate.t :=
  match os with
  | [] => []
  | LineLoaded date rate :: os' =>
      SelicRate.mk i date rate now :: loadedRows now (i + 1) os'
  | _ :: os' => loadedRows now i os'
  end.

(** Following the specification: a line is a duplicate when its calendar
    month is already there. *)
Definition spec_monthPresent (date : Date.t) (existing : list Date.t) : bool :=
  existsb (fun d => (Date.year d =? Date.year date)
                    && (Date.month d =? Date.month date)) existing.

(** The date keys the loaded lines add, in order. *)
Definition keysOf (os : list LineOutcome) : list (Z * Z * Z) :=
  flat_map (fun o => match o with
                     | LineLoaded date _ => [Date.isoDate date]
                     | _ => []
                     end) os.

End LoadSpec.

(** The database after the rows of the loaded lines were added to the rates
    table. *)
Definition withLoaded (now : Date.t) (os : list LineOutcome) (db : DB) : DB :=
  mkDB (uploadBatchesTable db) (electricityBillsTable db)
       (selicRatesTable db ++ loadedRows now (nextRateId db) os)
       (nextBatchId db) (nextBillId db)
       (nextRateId db + countOf isLoaded os).

(** ** Invariants of the batches and their bill records *)

(** The counters, the status and the completion time of a batch agree: the
    failed files are among the processed ones, and the batch is either
    completed, with a completion time and all its files processed, or in
    processing, without a completion time and with files left (or none
    processed yet). *)
Definition batchConsistent (b : Batch.t) : Prop :=
  0 <= Batch.failed_files b <= Batch.processed_files b
  /\ ((Batch.status b = completed /\ Batch.completed_at b <> None
       /\ Batch.total_files b <= Batch.processed_files b)
      \/ (Batch.status b = processing /\ Batch.completed_at b = None
          /\ (Batch.processed_files b < Batch.total_files b
              \/ Batch.processed_files b = 0))).

(** A bill record that has left the status 'pending'. *)
Definition isTerminal (r : BillRow.t) : bool :=
  negb (ExtractionStatus_eqb (BillRow.extraction_status r) pending).

(** Number of bill records of the batch [u] that have left 'pending'. *)
Definition terminalCount (u : Z) (bills : list BillRow.t) : Z :=
  Z.of_nat (List.length
              (filter (fun r => (BillRow.upload_id r =? u) && isTerminal r)
                      bills)).

(** Every batch has counted, in processed_files, the records of its own
    that have left 'pending'. *)
Definition tracked (db : DB) : Prop :=
  forall b, In b (uploadBatchesTable db) ->
            Batch.processed_files b
            = terminalCount (Batch.id b) (electricityBillsTable db).

(** The bill records have distinct numbers. *)
Definition distinctBills (db : DB) : Prop :=
  NoDup (map BillRow.id (electricityBillsTable db)).

(** The rates are in ascending order of date. *)
Fixpoint ascending (l : list SelicRate.t) : Prop :=
  match l with
  | [] => True
  | r :: l' =>
      (forall r', In r' l' ->
                  Date.getTime (SelicRate.date r)
                  <= Date.getTime (SelicRate.date r'))
      /\ ascending l'
  end.

(** The date keys of the rates table. *)
Definition dateKeys (rates : list SelicRate.t) : list (Z * Z * Z) :=
  map (fun r => Date.isoDate (SelicRate.date r)) rates.

(** No date key occurs twice. *)
Fixpoint distinctKeys (keys : list (Z * Z * Z)) : Prop :=
  match keys with
  | [] => True
  | k :: keys' => hasDate k keys' = false /\ distinctKeys keys'
  end.

(** ** Processing a file *)






(** ** A platform and data to run the handlers on *)

Module Sample.

Definition digit (c : ascii) : option Z :=
  let n := Z.of_N (N_of_ascii c) in
  if (48 <=? n) && (n <=? 57) then Some (n - 48) else None.

(** The number a string of decimal digits writes. *)
Fixpoint digitsFrom (acc : Z) (s : string) : option Z :=
  match s with
  | EmptyString => Some acc
  | String c s' =>
      match digit c with
      | Some d => digitsFrom (10 * acc + d) s'
      | None => None
      end
  end.

Definition digits (s : string) : option Z :=
  match s with
  | EmptyString => None
  | _ => digitsFrom 0 s
  end.

(** [new Date(text)] on the text [YYYY-MM-DD] of a calendar day; any other
    text is an Invalid Date here. *)
Definition parseIsoDate (s : string) : option Date.t :=
  match Js.split "-" s with
  | [y; m; d] =>
      match digits y, digits m, digits d with
      | Some yv, Some mv, Some dv =>
          let date := Date.ymd yv mv dv in
          if (String.length y =? 4)%nat && (String.length m =? 2)%nat
             && (String.length d =? 2)%nat && Date.validb date
          then Some date else None
      | _, _, _ => None
      end
  | _ => None
  end.

Fixpoint floatOfPos (p : positive) : float :=
  match p with
  | xH => 1%float
  | xO p' => (2 * floatOfPos p')%float
  | xI p' => (2 * floatOfPos p' + 1)%float
  end.

(** An integer below 2^53 as a number. *)
Definition floatOfZ (n : Z) : float :=
  match n with
  | Z0 => 0%float
  | Zpos p => floatOfPos p
  | Zneg p => (- floatOfPos p)%float
  end.

(** [parseFloat(text)] on a plain decimal numeral [digits] or
    [digits.digits] with at most 15 digits; any other text reads as [NaN]
    here. *)
Definition parseDecimal (s : string) : float :=
  match Js.split "." s with
  | [i] =>
      match digits i with
      | Some iv => if (String.length i <=? 15)%nat then floatOfZ iv else nan
      | None => nan
      end
  | [i; f] =>
      match digits i, digits (i ++ f) with
      | Some _, Some v =>
          if (String.length (i ++ f) <=? 15)%nat
          then (floatOfZ v / floatOfZ (10 ^ Z.of_nat (String.length f)))%float
          else nan
      | _, _ => nan
      end
  | _ => nan
  end.

(** A [numeric(p, s)] column on the numbers the examples write, which have
    at most [s] decimals: a number below [10^(p-s)] in size is kept as it
    is, a larger one is rejected. *)
Definition keepInRange (p s : Z) (x : float) : option float :=
  if is_nan x then Some x
  else if (abs x <? floatOfZ (10 ^ (p - s)))%float then Some x
  else None.

Definition platform : Platform :=
  {| pg_numeric := keepInRange;
     Date_parse := parseIsoDate;
     parseFloat := parseDecimal |}.

(** A time at which the sample rows were created. *)
Definition t0 : Date.t := Date.ymd 2022 12 1.

(** A bill numbered 1 with the total amount [p], dated [d]. *)
Definition billOf (p : float) (d : Date.t) : ElectricityBill.t :=
  ElectricityBill.mk 1 "test-bill.pdf" 1 p 150.5 (Some d) None success None
                     t0.

Definition batchOf1 : Batch.t :=
  Batch.mk 1 "test-bills.zip" 1 0 0 processing t0 None.

(** A database with the row of that bill and the given rates. *)
Definition dbOf (p : float) (d : Date.t) (rates : list (Date.t * float))
    : DB :=
  mkDB [batchOf1]
       [BillRow.mk 1 "test-bill.pdf" 1 (Some p) (Some 150.5%float) (Some d)
                   None success None t0]
       (map (fun '(i, (rd, r)) => SelicRate.mk (Z.of_nat i) rd r t0)
            (combine (seq 1 (List.length rates)) rates))
       2 2 (Z.of_nat (List.length rates) + 1).

(** The compounding test: 1000 dated 1 January 2023, 1% for January and
    for February 2023. *)
Definition jan1 : Date.t := Date.ymd 2023 1 1.
Definition mar1 : Date.t := Date.ymd 2023 3 1.
Definition dbJanFeb : DB :=
  dbOf 1000 jan1 [(Date.ymd 2023 1 1, 0.01%float);
                  (Date.ymd 2023 2 1, 0.01%float)].

(** 1000 dated 15 January 2023, 1% for February and for March 2023, seen
    on 20 March 2023. *)
Definition jan15 : Date.t := Date.ymd 2023 1 15.
Definition mar20 : Date.t := Date.ymd 2023 3 20.
Definition jan31 : Date.t := Date.ymd 2023 1 31.
Definition mar10 : Date.t := Date.ymd 2023 3 10.

(** 1000 dated 15 January 2023, 1% dated 1 January and 1% dated 1 February
    2023. *)
Definition dbJan15 : DB :=
  dbOf 1000 jan15 [(Date.ymd 2023 1 1, 0.01%float);
                   (Date.ymd 2023 2 1, 0.01%float)].
Definition dbFebMar : DB :=
  dbOf 1000 jan15 [(Date.ymd 2023 2 1, 0.01%float);
                   (Date.ymd 2023 3 1, 0.01%float)].

(** The same principal and bill date on another bill, in a database that
    has the same rates and differs in its batches and bills. *)
Definition otherBill1000 : ElectricityBill.t :=
  ElectricityBill.mk 7 "another.png" 3 1000 0 (Some jan1) (Some 5%float)
                     pending (Some "earlier failure"%string) jan1.


(** An upload of one file, and two later times. *)
Definition oneFile : UploadZipInput.t := UploadZipInput.mk "one.zip" 512000 1.
Definition t1 : Date.t := Date.mk 2023 0 5 36000000.
Definition t2 : Date.t := Date.mk 2023 0 6 36000000.

(** A batch whose processed_files is the largest 32-bit integer, and an
    upload that declares more files than an [integer] column holds. *)
Definition fullCounterDb : DB :=
  mkDB [Batch.mk 1 "full.zip" 1 2147483647 0 completed t0 (Some t1)] [] []
       2 1 1.

Definition hugeZip : UploadZipInput.t :=
  UploadZipInput.mk "huge.zip" 1024 3000000000.

(** An upload of two files, and the results reported for its first
    bill: a success, then an error. *)
Definition twoFiles : UploadZipInput.t := UploadZipInput.mk "two.zip" 1024000 2.

Definition firstResult : UpdateBillResultInput.t :=
  UpdateBillResultInput.mk 1 (Some 120%float) None None None success None.


Definition secondResult : UpdateBillResultInput.t :=
  UpdateBillResultInput.mk 1 (Some 99.5%float) None None None error
                           (Some (Some "could not read the bill"%string)).



(** A PDF and an unreadable image for the batch numbered 1. *)
Definition pdfFile : ProcessBillInput.t :=
  ProcessBillInput.mk 1 "Bill.PDF" "%PDF-1.4 TEST_AMOUNT".

Definition badImage : ProcessBillInput.t :=
  ProcessBillInput.mk 1 "scan.png" "UNREADABLE_IMAGE".


(** The batch of the report test: two successful bills of 100 and 200,
    corrected to 110 and 210, and a failed one. *)
Definition reportDb : DB :=
  mkDB [Batch.mk 1 "test-bills.zip" 3 3 1 completed t0 (Some t1)]
       [BillRow.mk 1 "a.pdf" 1 (Some 100%float) (Some 150%float) (Some jan1)
                   (Some 110%float) success None t0;
        BillRow.mk 2 "b.pdf" 1 (Some 200%float) (Some 250%float) (Some jan15)
                   (Some 210%float) success None t0;
        BillRow.mk 3 "c.pdf" 1 None None None None error
                   (Some "Invalid PDF format"%string) t0]
       [] 2 4 1.

Definition reportInput : GenerateReportInput.t := GenerateReportInput.mk 1 csv.

(** A batch of one successful bill of 100 whose corrected amount is 0. *)
Definition zeroCorrectedDb : DB :=
  mkDB [Batch.mk 1 "test-bills.zip" 1 1 0 completed t0 (Some t1)]
       [BillRow.mk 1 "a.pdf" 1 (Some 100%float) (Some 150%float) (Some jan1)
                   (Some 0%float) success None t0]
       [] 2 2 1.

(** Rate files: a header, then a well-formed line, a line for another day
    of the same month or for the same day, and a malformed line. *)
Definition newline : string := String "010" EmptyString.

Definition sameMonthFile : string :=
  ("date,rate" ++ newline ++ "2023-01-01,0.0125" ++ newline
   ++ "2023-01-15,0.0110" ++ newline ++ "invalid-date,0.0110")%string.

Definition sameDayFile : string :=
  ("date,rate" ++ newline ++ "2023-01-01,0.0125" ++ newline
   ++ "2023-01-01,0.0110" ++ newline ++ "invalid-date,0.0110")%string.

End Sample.

(** * Properties *)

(** ** The calendar *)

Lemma daysInMonth_bounds y m : 28 <= Date.daysInMonth y m <= 31.
Proof.
  unfold Date.daysInMonth.
  repeat match goal with
         | |- context [match ?x with _ => _ end] => destruct x
         end; lia.
Qed.

Lemma dayFromYear_succ y :
  Date.dayFromYear (y + 1)
  = Date.dayFromYear y + 365 + (if Date.isLeap y then 1 else 0).
Proof.
  unfold Date.dayFromYear, Date.isLeap.
  destruct (Z.eqb_spec (y mod 4) 0), (Z.eqb_spec (y mod 100) 0),
           (Z.eqb_spec (y mod 400) 0); cbn [andb orb negb];
    Z.div_mod_to_equations; lia.
Qed.

(** The first day of the next month comes a month's length later. *)
Lemma firstDay_succ k :
  Date.firstDay (k + 1)
  = Date.firstDay k + Date.daysInMonth (k / 12) (k mod 12).
Proof.
  unfold Date.firstDay.
  assert (H : 0 <= k mod 12 < 12) by (apply Z.mod_pos_bound; lia).
  assert (Hk : k = 12 * (k / 12) + k mod 12) by (apply Z.div_mod; lia).
  remember (k / 12) as y. remember (k mod 12) as m.
  assert (C : m = 0 \/ m = 1 \/ m = 2 \/ m = 3 \/ m = 4 \/ m = 5 \/ m = 6
              \/ m = 7 \/ m = 8 \/ m = 9 \/ m = 10 \/ m = 11) by lia.
  assert (E11 : m = 11 -> (k + 1) / 12 = y + 1 /\ (k + 1) mod 12 = 0).
  { intros ->. split; Z.div_mod_to_equations; lia. }
  assert (Elt : m < 11 -> (k + 1) / 12 = y /\ (k + 1) mod 12 = m + 1).
  { intros. split; Z.div_mod_to_equations; lia. }
  destruct C as [->|[->|[->|[->|[->|[->|[->|[->|[->|[->|[->| ->]]]]]]]]]]].
  12: { destruct E11 as [-> ->]; auto. rewrite dayFromYear_succ.
        unfold Date.dayWithinYear, Date.daysInMonth.
        destruct (Date.isLeap y); lia. }
  all: destruct Elt as [-> ->]; [lia|];
    unfold Date.dayWithinYear, Date.daysInMonth; cbn;
    destruct (Date.isLeap y); lia.
Qed.

(** A later month starts after the whole of an earlier one. *)
Lemma firstDay_mono k n :
  0 <= n ->
  Date.firstDay k + Date.daysInMonth (k / 12) (k mod 12)
  <= Date.firstDay (k + 1 + n).
Proof.
  revert n. apply natlike_ind.
  - rewrite Z.add_0_r, firstDay_succ. lia.
  - intros n Hn IH.
    replace (k + 1 + Z.succ n) with ((k + 1 + n) + 1) by lia.
    rewrite firstDay_succ.
    pose proof (daysInMonth_bounds ((k + 1 + n) / 12) ((k + 1 + n) mod 12)).
    lia.
Qed.

Lemma monthIndex_split k : 12 * (k / 12) + k mod 12 = k.
Proof. symmetry. apply Z.div_mod. lia. Qed.

Lemma getTime_mk y m dy msv :
  Date.getTime (Date.mk y m dy msv)
  = (Date.firstDay (12 * y + m) + (dy - 1)) * Date.msPerDay + msv.
Proof. reflexivity. Qed.

(** The time value of [ofMonthDay k dy ms] counts [dy] days from the first
      of month [k], whether or not the month has that many days. *)
Lemma getTime_ofMonthDay k dy msv :
  Date.getTime (Date.ofMonthDay k dy msv)
  = (Date.firstDay k + (dy - 1)) * Date.msPerDay + msv.
Proof.
  unfold Date.ofMonthDay.
  destruct (dy <=? Date.daysInMonth (k / 12) (k mod 12));
    rewrite getTime_mk, monthIndex_split.
  - reflexivity.
  - rewrite firstDay_succ. f_equal. f_equal. lia.
Qed.

(** [setMonth(getMonth() + 1)] moves a date forward by the length of its
      month. *)
Lemma getTime_next_month d :
  Date.getTime (Date.setMonth d (Date.getMonth d + 1))
  = Date.getTime d
    + Date.daysInMonth (Date.monthIndex d / 12) (Date.monthIndex d mod 12)
      * Date.msPerDay.
Proof.
  unfold Date.setMonth, Date.getMonth. rewrite getTime_ofMonthDay.
  unfold Date.getTime, Date.monthIndex.
  replace (12 * Date.year d + (Date.month d + 1))
    with (12 * Date.year d + Date.month d + 1) by lia.
  rewrite firstDay_succ. lia.
Qed.

Lemma firstDay_lt k k' :
  k < k' ->
  Date.firstDay k + Date.daysInMonth (k / 12) (k mod 12) <= Date.firstDay k'.
Proof.
  intros H. replace k' with (k + 1 + (k' - k - 1)) by lia.
  apply firstDay_mono. lia.
Qed.

Lemma valid_index d :
  Date.valid d ->
  Date.monthIndex d / 12 = Date.year d /\ Date.monthIndex d mod 12 = Date.month d.
Proof.
  intros (Hm & _). unfold Date.monthIndex.
  split; Z.div_mod_to_equations; lia.
Qed.

(** A date is its month number, its day and its time of day. *)
Lemma valid_as_index d :
  Date.valid d ->
  d = Date.mk (Date.monthIndex d / 12) (Date.monthIndex d mod 12)
              (Date.day d) (Date.ms d).
Proof.
  intros H. destruct (valid_index d H) as [-> ->]. destruct d. reflexivity.
Qed.

(** An earlier month ends before a later one starts. *)
Lemma getTime_month_lt a b :
  Date.valid a -> Date.valid b ->
  Date.monthIndex a < Date.monthIndex b -> Date.getTime a < Date.getTime b.
Proof.
  intros Ha Hb Hlt. pose proof (firstDay_lt _ _ Hlt) as H.
  destruct (valid_index a Ha) as [Ey Em]. rewrite Ey, Em in H.
  destruct Ha as (_ & Hda & Hma), Hb as (_ & Hdb & Hmb).
  unfold Date.getTime, Date.msPerDay in *. lia.
Qed.

(** The fields of a date are determined by its time value: dates that
    compare equal are the same date. *)
Lemma getTime_inj a b :
  Date.valid a -> Date.valid b -> Date.getTime a = Date.getTime b -> a = b.
Proof.
  intros Ha Hb E.
  destruct (Z.lt_trichotomy (Date.monthIndex a) (Date.monthIndex b))
    as [Hlt|[Heq|Hgt]].
  - pose proof (getTime_month_lt a b Ha Hb Hlt). lia.
  - rewrite (valid_as_index a Ha), (valid_as_index b Hb), Heq.
    unfold Date.getTime in E. rewrite Heq in E.
    destruct Ha as (_ & Hda & Hma), Hb as (_ & Hdb & Hmb).
    unfold Date.msPerDay in *.
    assert (Date.day a = Date.day b) by lia.
    assert (Date.ms a = Date.ms b) by lia.
    congruence.
  - pose proof (getTime_month_lt b a Hb Ha Hgt). lia.
Qed.

(** [setMonth] gives a date again. *)
Lemma setMonth_valid d m : Date.valid d -> Date.valid (Date.setMonth d m).
Proof.
  intros (_ & Hd & Hms). unfold Date.setMonth, Date.ofMonthDay.
  set (k := 12 * Date.year d + m).
  pose proof (daysInMonth_bounds (Date.year d) (Date.month d)).
  pose proof (daysInMonth_bounds (k / 12) (k mod 12)).
  pose proof (daysInMonth_bounds ((k + 1) / 12) ((k + 1) mod 12)).
  pose proof (Z.mod_pos_bound k 12 ltac:(lia)).
  pose proof (Z.mod_pos_bound (k + 1) 12 ltac:(lia)).
  destruct (Z.leb_spec (Date.day d) (Date.daysInMonth (k / 12) (k mod 12)));
    unfold Date.valid; cbn [Date.year Date.month Date.day Date.ms]; lia.
Qed.

(** A day of the month that the next month lacks runs into the month
    after: from 31 January, [setMonth(1)] gives 3 March (2 March in a leap
    year), and February is passed over. *)
Lemma setMonth_overflow_example :
  Date.setMonth (Date.ymd 2023 1 31) 1 = Date.ymd 2023 3 3
  /\ Date.setMonth (Date.ymd 2024 1 31) 1 = Date.ymd 2024 3 2
  /\ Date.setMonth (Date.ymd 2023 12 15) 12 = Date.ymd 2024 1 15.
Proof. repeat split. Qed.

(** ** The month map *)

Lemma key_eqb_eq a b : MonthMap.key_eqb a b = true <-> a = b.
Proof.
  destruct a as [a1 a2], b as [b1 b2]. unfold MonthMap.key_eqb. cbn.
  rewrite andb_true_iff, !Z.eqb_eq. split.
  - intros [-> ->]. reflexivity.
  - intros [= -> ->]. auto.
Qed.

Lemma key_eqb_refl a : MonthMap.key_eqb a a = true.
Proof. apply key_eqb_eq. reflexivity. Qed.

Lemma get_set k k' v m :
  MonthMap.get k (MonthMap.set k' v m)
  = if MonthMap.key_eqb k' k then Some v else MonthMap.get k m.
Proof.
  induction m as [|[k1 v1] m IH]; cbn.
  - reflexivity.
  - destruct (MonthMap.key_eqb k1 k') eqn:E1; cbn.
    + apply key_eqb_eq in E1. subst k1.
      destruct (MonthMap.key_eqb k' k); reflexivity.
    + rewrite IH. destruct (MonthMap.key_eqb k1 k) eqn:E2; [|reflexivity].
      apply key_eqb_eq in E2. subst k1.
      destruct (MonthMap.key_eqb k' k) eqn:E3; [|reflexivity].
      apply key_eqb_eq in E3. subst k'. rewrite key_eqb_refl in E1.
      discriminate.
Qed.

Section CorrectionFacts.

Context {P : Platform}.

Lemma get_fold_set key rates m :
  MonthMap.get key
    (fold_left (fun m rate =>
                  MonthMap.set (monthKey (SelicRate.date rate))
                               (SelicRate.rate rate) m) rates m)
  = fold_left (fun found r =>
                 if MonthMap.key_eqb (monthKey (SelicRate.date r)) key
                 then Some (SelicRate.rate r) else found)
              rates (MonthMap.get key m).
Proof.
  revert m. induction rates as [|r rates IH]; intros m; cbn.
  - reflexivity.
  - rewrite IH, get_set. reflexivity.
Qed.

(** The map gives each month the rate of the last entry dated in it. *)
Lemma monthlyRateAt_rateOfMonth rates current :
  monthlyRateAt (monthlyRatesOf rates) current
  = rateOfMonth rates (monthKey current).
Proof.
  unfold monthlyRateAt, rateOfMonth, monthlyRatesOf, lastRateOf.
  rewrite get_fold_set. reflexivity.
Qed.

(** The loop stops by its own test: the fuel [walkFuel] given to [walk]
    is never used up. *)
Lemma walk_Loop monthlyRates end_ fuel :
  forall current f,
    Date.getTime end_ - Date.getTime current
    < (Z.of_nat fuel - 1) * (28 * Date.msPerDay) ->
    Loop monthlyRates end_ current f (walk fuel monthlyRates current end_ f).
Proof.
  induction fuel as [|fuel IH]; intros current f Hlt.
  - cbn. apply Loop_exit. unfold Date.ltb. apply Z.ltb_ge.
    unfold Date.msPerDay in Hlt. lia.
  - cbn [walk]. destruct (Date.ltb current end_) eqn:E.
    + apply Loop_step; [exact E|]. apply IH.
      rewrite getTime_next_month.
      pose proof (daysInMonth_bounds (Date.monthIndex current / 12)
                                     (Date.monthIndex current mod 12)).
      unfold Date.msPerDay in *. lia.
    + apply Loop_exit. exact E.
Qed.

Lemma walk_exits monthlyRates startDate endDate f :
  Loop monthlyRates endDate startDate f
       (walk (walkFuel startDate endDate) monthlyRates startDate endDate f).
Proof.
  apply walk_Loop. unfold walkFuel.
  set (d := Date.getTime endDate - Date.getTime startDate).
  unfold Date.msPerDay. cbn [Z.mul].
  destruct (Z.le_gt_cases 0 d) as [Hd|Hd].
  - rewrite Nat2Z.inj_add, Z2Nat.id by (apply Z.div_pos; lia).
    Z.div_mod_to_equations. lia.
  - rewrite Nat2Z.inj_add. lia.
Qed.

(** The loop has one outcome. *)
Lemma Loop_functional monthlyRates end_ current f r1 r2 :
  Loop monthlyRates end_ current f r1 ->
  Loop monthlyRates end_ current f r2 -> r1 = r2.
Proof.
  intros H1. revert r2. induction H1 as [c f E|c f r E _ IH]; intros r2 H2.
  - inversion H2; subst; [reflexivity | congruence].
  - inversion H2; subst; [congruence | auto].
Qed.

End CorrectionFacts.

Section Walk.

Context {P : Platform}.

Variable rates : list SelicRate.t.
Variable end_ : Date.t.
Variables dy msv : Z.
Hypothesis end_valid : Date.valid end_.
Hypothesis dy_range : 1 <= dy <= 28.
Hypothesis msv_range : 0 <= msv < Date.msPerDay.

Let at_month (k : Z) : Date.t := Date.mk (k / 12) (k mod 12) dy msv.
Let later : Z :=
  if (dy - 1) * Date.msPerDay + msv <? withinMonth end_ then 1 else 0.

Lemma getTime_at_month k :
  Date.getTime (at_month k)
  = (Date.firstDay k + (dy - 1)) * Date.msPerDay + msv.
Proof. unfold at_month. rewrite getTime_mk, monthIndex_split. reflexivity. Qed.

Lemma getTime_end :
  Date.getTime end_
  = Date.firstDay (Date.monthIndex end_) * Date.msPerDay + withinMonth end_.
Proof. unfold Date.getTime, withinMonth. lia. Qed.

Lemma withinMonth_end :
  0 <= withinMonth end_
  < Date.daysInMonth (Date.monthIndex end_ / 12) (Date.monthIndex end_ mod 12)
    * Date.msPerDay.
Proof.
  destruct (valid_index end_ end_valid) as [-> ->].
  destruct end_valid as (_ & Hd & Hms).
  unfold withinMonth, Date.msPerDay in *. lia.
Qed.

(** The date the loop is on is before [end_] exactly while months remain. *)
Lemma ltb_at_month k :
  Date.ltb (at_month k) end_
  = (0 <? Date.monthIndex end_ - k + later).
Proof.
  unfold Date.ltb. rewrite getTime_at_month, getTime_end.
  pose proof withinMonth_end as Hw.
  pose proof (daysInMonth_bounds (k / 12) (k mod 12)) as Hk.
  unfold later.
  destruct (Z.lt_trichotomy k (Date.monthIndex end_)) as [Hlt|[Heq|Hgt]].
  - pose proof (firstDay_lt _ _ Hlt).
    transitivity true; [|symmetry]; apply Z.ltb_lt.
    + unfold Date.msPerDay in *. lia.
    + destruct (_ <? withinMonth end_); lia.
  - subst k.
    destruct ((dy - 1) * Date.msPerDay + msv <? withinMonth end_) eqn:E.
    + transitivity true; [|symmetry]; apply Z.ltb_lt; [|lia].
      apply Z.ltb_lt in E. unfold Date.msPerDay in *. lia.
    + transitivity false; [|symmetry]; apply Z.ltb_ge; [|lia].
      apply Z.ltb_ge in E. unfold Date.msPerDay in *. lia.
  - pose proof (firstDay_lt _ _ Hgt).
    transitivity false; [|symmetry]; apply Z.ltb_ge.
    + unfold Date.msPerDay in *. lia.
    + destruct (_ <? withinMonth end_); lia.
Qed.

(** With a day of the month that every month has, [setMonth] goes to the
    same day of the next month. *)
Lemma setMonth_at_month k :
  Date.setMonth (at_month k) (Date.getMonth (at_month k) + 1)
  = at_month (k + 1).
Proof.
  unfold Date.setMonth, Date.getMonth, at_month. cbn [Date.year Date.month Date.day Date.ms].
  replace (12 * (k / 12) + (k mod 12 + 1)) with (k + 1)
    by (pose proof (monthIndex_split k); lia).
  unfold Date.ofMonthDay.
  pose proof (daysInMonth_bounds ((k + 1) / 12) ((k + 1) mod 12)).
  destruct (Z.leb_spec dy (Date.daysInMonth ((k + 1) / 12) ((k + 1) mod 12)));
    [reflexivity | lia].
Qed.

(** From month [k] on, the loop multiplies in the rates of the months that
    remain. *)
Lemma Loop_months n :
  forall k f,
    Z.of_nat n = Z.max 0 (Date.monthIndex end_ - k + later) ->
    Loop (monthlyRatesOf rates) end_ (at_month k) f
         (compoundFrom rates k n f).
Proof.
  induction n as [|n IH]; intros k f Hn.
  - cbn. apply Loop_exit. rewrite ltb_at_month. apply Z.ltb_ge. lia.
  - cbn [compoundFrom]. apply Loop_step.
    + rewrite ltb_at_month. apply Z.ltb_lt. lia.
    + rewrite setMonth_at_month, monthlyRateAt_rateOfMonth.
      apply IH. lia.
Qed.

End Walk.

(** ** Handlers: general facts *)

Lemma rethrow_id {A} (m : Db A) db : rethrow m db = m db.
Proof.
  unfold rethrow, try_catch, throw. destruct (m db) as [[a|e] db']; reflexivity.
Qed.

Lemma bind_returned {A B} (m : Db A) (k : A -> Db B) db a db' :
  m db = (Returned a, db') -> bind m k db = k a db'.
Proof. unfold bind. intros ->. reflexivity. Qed.

Section CorrectionTheorems.

Context {P : Platform}.

Lemma getSelicRatesForPeriod_eq startDate endDate db :
  getSelicRatesForPeriod startDate endDate db
  = (Returned (ratesInPeriod db startDate endDate), db).
Proof. unfold getSelicRatesForPeriod. rewrite rethrow_id. reflexivity. Qed.

(** The factor is the product of [1 + rate] over the months the loop goes
    through, for a start date whose day of the month every month has. *)
Lemma calculateAccumulatedCorrection_months selicRates startDate endDate :
  Date.valid startDate -> Date.valid endDate ->
  Date.day startDate <= 28 ->
  selicRates <> [] ->
  calculateAccumulatedCorrection selicRates startDate endDate
  = compoundFrom selicRates (Date.monthIndex startDate)
                 (monthsTraversed startDate endDate) 1.
Proof.
  intros Hs He Hd Hne. unfold calculateAccumulatedCorrection.
  destruct selicRates as [|r0 rs]; [congruence|]. cbn [List.length Nat.eqb].
  set (rates := r0 :: rs).
  apply (Loop_functional (monthlyRatesOf rates) endDate startDate 1%float).
  - apply walk_exits.
  - rewrite (valid_as_index startDate Hs) at 1.
    destruct Hs as (Hm & Hdy & Hms).
    apply Loop_months; try assumption; try lia.
    unfold monthsTraversed, withinMonth. lia.
Qed.

(** *** Storing a corrected amount *)

Lemma filter_map_update x (g : BillRow.t -> BillRow.t) rows :
  (forall r, BillRow.id (g r) = BillRow.id r) ->
  filter (fun r => BillRow.id r =? x)
         (map (fun r => if BillRow.id r =? x then g r else r) rows)
  = map g (filter (fun r => BillRow.id r =? x) rows).
Proof.
  intros Hg. induction rows as [|r rows IH]; cbn; [reflexivity|].
  destruct (BillRow.id r =? x) eqn:E; cbn.
  - rewrite Hg, E. cbn. f_equal. exact IH.
  - rewrite E. exact IH.
Qed.

Lemma filter_nonempty {A} (p : A -> bool) l a :
  In a l -> p a = true -> exists b rest, filter p l = b :: rest.
Proof.
  intros Hin Hp.
  destruct (filter p l) as [|b rest] eqn:E; [|eauto].
  assert (Ha : In a (filter p l)) by (apply filter_In; auto).
  rewrite E in Ha. destruct Ha.
Qed.

(** When the column takes the amount and the bill has a row,
    [storeCorrected] returns the bill with the amount as the column keeps
    it, and nothing else in the database changes. *)
Lemma storeCorrected_returns now x amount v db :
  pg_numeric 10 2 amount = Some v ->
  (exists r, In r (electricityBillsTable db) /\ BillRow.id r = x) ->
  exists b,
    storeCorrected now x amount db = (Returned b, withCorrected x v db)
    /\ ElectricityBill.corrected_amount b = Some v.
Proof.
  intros Hv (r & Hin & Hid).
  unfold storeCorrected, updateBillsById, storedBillSet, numericOpt.
  cbn [set_total_amount set_energy_consumption set_corrected_amount
       set_bill_date set_extraction_status set_error_message].
  rewrite Hv. cbn [option_map].
  unfold bind, ret, writeDb, selectBillsById, readDb, withBillSet.
  cbn [fst snd electricityBillsTable].
  rewrite filter_map_update by reflexivity.
  destruct (filter_nonempty (fun r => BillRow.id r =? x)
              (electricityBillsTable db) r Hin) as (b0 & rest & E).
  { apply Z.eqb_eq. exact Hid. }
  rewrite E. cbn [map firstRow].
  eexists. split; reflexivity.
Qed.

(** When the column rejects the amount, or the bill has no row,
    [storeCorrected] throws. *)
Lemma storeCorrected_rejected now x amount db :
  pg_numeric 10 2 amount = None ->
  storeCorrected now x amount db = (Thrown DbError, db).
Proof.
  intros Hv.
  unfold storeCorrected, updateBillsById, storedBillSet, numericOpt.
  cbn [set_total_amount set_energy_consumption set_corrected_amount].
  rewrite Hv. reflexivity.
Qed.

Lemma ltb_not_geb a b : Date.ltb a b = true -> Date.geb a b = false.
Proof.
  unfold Date.ltb, Date.geb. intros H. apply Z.ltb_lt in H.
  apply Z.leb_gt. exact H.
Qed.

(** Once the input is accepted, [calculateSelicCorrection] stores one
    amount, which depends on the principal, the bill date, the current
    time and the rates only. *)
Lemma calculateSelicCorrection_accepted now bill db date :
  ElectricityBill.bill_date bill = Some date ->
  Js.truthy (ElectricityBill.total_amount bill) = true ->
  calculateSelicCorrection now bill db
  = storeCorrected now (ElectricityBill.id bill)
      (correctedAmountOf now (selicRatesTable db)
                         (ElectricityBill.total_amount bill) date)
      db.
Proof.
  intros Hd Ht. unfold calculateSelicCorrection, correctedAmountOf.
  rewrite rethrow_id, Hd, Ht. cbn [negb].
  destruct (Date.geb date now); [reflexivity|].
  rewrite (bind_returned _ _ _ _ _ (getSelicRatesForPeriod_eq date now db)).
  unfold ratesInPeriod.
  destruct (List.length _ =? 0)%nat; reflexivity.
Qed.

Lemma calculateSelicCorrection_rejected now bill db :
  ElectricityBill.bill_date bill = None
  \/ Js.truthy (ElectricityBill.total_amount bill) = false ->
  calculateSelicCorrection now bill db = (Thrown requiredError, db).
Proof.
  intros H. unfold calculateSelicCorrection. rewrite rethrow_id.
  destruct (ElectricityBill.bill_date bill) as [date|]; [|reflexivity].
  destruct H as [H|H]; [discriminate|]. rewrite H. reflexivity.
Qed.

Lemma correctedAmountOf_before now db p date :
  Date.ltb date now = true ->
  ratesInPeriod db date now <> [] ->
  correctedAmountOf now (selicRatesTable db) p date
  = (p * calculateAccumulatedCorrection (ratesInPeriod db date now) date now)%float.
Proof.
  intros Hlt Hne. unfold correctedAmountOf.
  rewrite (ltb_not_geb _ _ Hlt). fold (ratesInPeriod db date now).
  destruct (ratesInPeriod db date now); [congruence | reflexivity].
Qed.

(** C1, amended.  For a bill that has a record and whose input is accepted
    (a bill date, a total amount that is not zero), dated before the as-of
    date (the current time) on a day of the month from 1 to 28, with at
    least one rate dated from the bill date to the as-of date, and with the
    as-of date no later within its month than the bill date is within its
    own: the correction walks the calendar months from the month of the
    bill date up to, but not including, the month of the as-of date; it
    multiplies a factor starting at 1 by 1 + the rate of each of these
    months in turn, where only the rates dated from the bill date to the
    as-of date are looked at, so that a month without such a rate counts
    for 0, also when the table has a rate dated in that month before the
    bill date; the principal times this factor, as the column keeps it, is
    written to the corrected amount of the bill's record, nothing else in
    the database changes, and the bill is returned with that value. *)
Theorem calculateSelicCorrection_compounds now bill db date v :
  ElectricityBill.bill_date bill = Some date ->
  Js.truthy (ElectricityBill.total_amount bill) = true ->
  Date.valid date -> Date.valid now -> Date.day date <= 28 ->
  Date.ltb date now = true ->
  withinMonth now <= withinMonth date ->
  ratesInPeriod db date now <> [] ->
  (exists r, In r (electricityBillsTable db)
             /\ BillRow.id r = ElectricityBill.id bill) ->
  pg_numeric 10 2
    (spec_correct (ratesInPeriod db date now)
                  (ElectricityBill.total_amount bill) date now) = Some v ->
  exists b,
    calculateSelicCorrection now bill db
    = (Returned b, withCorrected (ElectricityBill.id bill) v db)
    /\ ElectricityBill.corrected_amount b = Some v.
Proof.
  intros Hd Ht Hvd Hvn H28 Hlt Hwithin Hne Hrow Hv.
  rewrite (calculateSelicCorrection_accepted now bill db date Hd Ht).
  rewrite (correctedAmountOf_before now db _ date Hlt Hne).
  rewrite calculateAccumulatedCorrection_months by assumption.
  assert (Hn : monthsTraversed date now = spec_monthsTraversed date now).
  { unfold monthsTraversed, spec_monthsTraversed.
    destruct (Z.ltb_spec (withinMonth date) (withinMonth now)); [lia|].
    rewrite Z.add_0_r. reflexivity. }
  rewrite Hn. fold (spec_correct (ratesInPeriod db date now)
                      (ElectricityBill.total_amount bill) date now).
  exact (storeCorrected_returns now _ _ v db Hv Hrow).
Qed.

End CorrectionTheorems.

Section CorrectionClaims.

Context {P : Platform}.

Lemma storeCorrected_not_Error now x amount db m :
  fst (storeCorrected now x amount db) <> Thrown (Error m).
Proof.
  unfold storeCorrected, updateBillsById, storedBillSet, numericOpt.
  cbn [set_total_amount set_energy_consumption set_corrected_amount].
  destruct (pg_numeric 10 2 amount) as [v|]; [|cbn; discriminate].
  cbn [option_map].
  unfold bind, ret, writeDb, selectBillsById, readDb. cbn [fst snd].
  destruct (filter _ _) as [|r rows]; cbn; discriminate.
Qed.


(** C6, amended.  For every principal that the input check accepts (not
    zero, not NaN) and every bill date at or after the current time, the
    principal itself, with no factor applied, is written to the bill's
    corrected amount, and the bill is returned with the value the column
    keeps of it: the principal unchanged when the column keeps it
    unchanged. *)
Theorem calculateSelicCorrection_not_before now bill db date v :
  ElectricityBill.bill_date bill = Some date ->
  Js.truthy (ElectricityBill.total_amount bill) = true ->
  Date.geb date now = true ->
  (exists r, In r (electricityBillsTable db)
             /\ BillRow.id r = ElectricityBill.id bill) ->
  pg_numeric 10 2 (ElectricityBill.total_amount bill) = Some v ->
  exists b,
    calculateSelicCorrection now bill db
    = (Returned b, withCorrected (ElectricityBill.id bill) v db)
    /\ ElectricityBill.corrected_amount b = Some v.
Proof.
  intros Hd Ht Hge Hrow Hv.
  rewrite (calculateSelicCorrection_accepted now bill db date Hd Ht).
  unfold correctedAmountOf. rewrite Hge.
  apply storeCorrected_returns; assumption.
Qed.



(** C9, amended.  The correction fails its input check, with the error
    "Bill date and total amount are required", exactly when the bill date
    is absent or the principal is zero or NaN; for every other principal,
    negative and infinite ones included, with a bill date present, it does
    not fail on the input check. *)
Theorem calculateSelicCorrection_validation now bill db :
  fst (calculateSelicCorrection now bill db) = Thrown requiredError
  <-> ElectricityBill.bill_date bill = None
      \/ Js.truthy (ElectricityBill.total_amount bill) = false.
Proof.
  split.
  - intros H.
    destruct (ElectricityBill.bill_date bill) as [date|] eqn:E; [|auto].
    destruct (Js.truthy (ElectricityBill.total_amount bill)) eqn:T; [|auto].
    rewrite (calculateSelicCorrection_accepted now bill db date E T) in H.
    exfalso. exact (storeCorrected_not_Error _ _ _ _ _ H).
  - intros H. rewrite calculateSelicCorrection_rejected by exact H.
    reflexivity.
Qed.

End CorrectionClaims.

(** *** The correction on the sample data *)

(** Two numbers differ when the comparison of one with itself and with the
    other differ. *)
Ltac floats_differ :=
  let H := fresh in
  intro H;
  match type of H with
  | Some ?a = Some ?b =>
      apply (f_equal (fun o => match o with
                               | Some x => PrimFloat.eqb x b
                               | None => false
                               end)) in H
  | ?a = ?b => apply (f_equal (fun x => PrimFloat.eqb x b)) in H
  end;
  vm_compute in H; discriminate H.

Lemma valid_validb d : Date.validb d = true -> Date.valid d.
Proof.
  unfold Date.validb, Date.valid. rewrite !andb_true_iff, !Z.leb_le, Z.ltb_lt.
  tauto.
Qed.

(** The compounding test: 1% for each of the two months gone through, on a
    principal of 1000, gives 1020.1. *)
Lemma calculateSelicCorrection_compounds_witness :
  exists b,
    calculateSelicCorrection (P := Sample.platform) Sample.mar1
      (Sample.billOf 1000 Sample.jan1) Sample.dbJanFeb
    = (Returned b, withCorrected 1 1020.1 Sample.dbJanFeb)
    /\ ElectricityBill.corrected_amount b = Some 1020.1%float.
Proof.
  apply (calculateSelicCorrection_compounds (P := Sample.platform) Sample.mar1
           (Sample.billOf 1000 Sample.jan1) Sample.dbJanFeb Sample.jan1
           1020.1%float).
  - reflexivity.
  - reflexivity.
  - apply valid_validb. reflexivity.
  - apply valid_validb. reflexivity.
  - vm_compute. discriminate.
  - reflexivity.
  - vm_compute. discriminate.
  - vm_compute. discriminate.
  - eexists. split; [left; reflexivity | reflexivity].
  - vm_compute. reflexivity.
Defined.

(** The result of the compounding test is within 1e-9 of 1020.10. *)
Lemma compounding_within_tolerance :
  (abs (1000 * compoundFrom
                 (ratesInPeriod Sample.dbJanFeb Sample.jan1 Sample.mar1)
                 (Date.monthIndex Sample.jan1) 2 1 - 1020.10)
   <? 0.000000001)%float = true.
Proof. vm_compute. reflexivity. Qed.

(** Against C1 as stated, twice.  A bill of 1000 dated 15 January 2023,
    corrected on 20 March 2023 with 1% for February and for March, comes
    out as 1020.1: the loop is on 15 March before it stops, so March, the
    month of the as-of date, is multiplied in; stopping before the month of
    the as-of date gives 1010.  The same bill corrected on 10 March 2023
    with 1% dated 1 January and 1% dated 1 February comes out as 1010: the
    rate dated 1 January is before the bill date and is not fetched, so
    January counts for 0; the rates of the two months walked give
    1020.1. *)
Lemma correction_departs_from_calendar_months :
  (Date.ltb Sample.jan15 Sample.mar20 = true
   /\ ratesInPeriod Sample.dbFebMar Sample.jan15 Sample.mar20 <> []
   /\ spec_correct (selicRatesTable Sample.dbFebMar) 1000
                   Sample.jan15 Sample.mar20 = 1010%float
   /\ exists b db',
        calculateSelicCorrection (P := Sample.platform) Sample.mar20
          (Sample.billOf 1000 Sample.jan15) Sample.dbFebMar
        = (Returned b, db')
        /\ ElectricityBill.corrected_amount b = Some 1020.1%float
        /\ ElectricityBill.corrected_amount b
           <> Some (spec_correct (selicRatesTable Sample.dbFebMar) 1000
                                 Sample.jan15 Sample.mar20))
  /\ (Date.ltb Sample.jan15 Sample.mar10 = true
      /\ ratesInPeriod Sample.dbJan15 Sample.jan15 Sample.mar10 <> []
      /\ spec_correct (selicRatesTable Sample.dbJan15) 1000
                      Sample.jan15 Sample.mar10 = 1020.1%float
      /\ exists b db',
           calculateSelicCorrection (P := Sample.platform) Sample.mar10
             (Sample.billOf 1000 Sample.jan15) Sample.dbJan15
           = (Returned b, db')
           /\ ElectricityBill.corrected_amount b = Some 1010%float
           /\ ElectricityBill.corrected_amount b
              <> Some (spec_correct (selicRatesTable Sample.dbJan15) 1000
                                    Sample.jan15 Sample.mar10)).
Proof.
  split.
  - split; [reflexivity|].
    split; [vm_compute; discriminate|].
    split; [vm_compute; reflexivity|].
    eexists. eexists. split; [vm_compute; reflexivity|].
    split; [reflexivity|].
    replace (spec_correct _ _ _ _) with 1010%float
      by (vm_compute; reflexivity).
    cbn [ElectricityBill.corrected_amount]. floats_differ.
  - split; [reflexivity|].
    split; [vm_compute; discriminate|].
    split; [vm_compute; reflexivity|].
    eexists. eexists. split; [vm_compute; reflexivity|].
    split; [reflexivity|].
    replace (spec_correct _ _ _ _) with 1020.1%float
      by (vm_compute; reflexivity).
    cbn [ElectricityBill.corrected_amount]. floats_differ.
Qed.

Lemma calculateSelicCorrection_not_before_witness :
  exists b,
    calculateSelicCorrection (P := Sample.platform) Sample.jan1
      (Sample.billOf 1000 Sample.jan1) Sample.dbJanFeb
    = (Returned b, withCorrected 1 1000 Sample.dbJanFeb)
    /\ ElectricityBill.corrected_amount b = Some 1000%float.
Proof.
  apply (calculateSelicCorrection_not_before (P := Sample.platform) Sample.jan1
           (Sample.billOf 1000 Sample.jan1) Sample.dbJanFeb Sample.jan1).
  - reflexivity.
  - reflexivity.
  - reflexivity.
  - eexists. split; [left; reflexivity | reflexivity].
  - vm_compute. reflexivity.
Defined.

(** Against C6 as stated: a principal of 0, a valid principal for the
    specification, corrected with the bill date equal to the current time is
    not returned unchanged: the call throws. *)
Lemma zero_principal_same_date_throws :
  calculateSelicCorrection (P := Sample.platform) Sample.jan1
    (Sample.billOf 0 Sample.jan1) (Sample.dbOf 0 Sample.jan1 [])
  = (Thrown requiredError, Sample.dbOf 0 Sample.jan1 []).
Proof. vm_compute. reflexivity. Qed.



(** Against C9 as stated: a principal of -5 passes the input check and is
    corrected, and a principal of 0 fails it. *)
Lemma negative_accepted_zero_rejected :
  (exists b db',
     calculateSelicCorrection (P := Sample.platform) Sample.mar1
       (Sample.billOf (-5) Sample.jan1) (Sample.dbOf (-5) Sample.jan1 [])
     = (Returned b, db')
     /\ ElectricityBill.corrected_amount b = Some (-5)%float)
  /\ fst (calculateSelicCorrection (P := Sample.platform) Sample.mar1
            (Sample.billOf 0 Sample.jan1) (Sample.dbOf 0 Sample.jan1 []))
     = Thrown requiredError.
Proof.
  split.
  - eexists. eexists. split; vm_compute; reflexivity.
  - vm_compute. reflexivity.
Qed.

(** ** Batches *)

Lemma filter_map_where {A} (p : A -> bool) (g : A -> A) l :
  (forall r, p (g r) = p r) ->
  filter p (map (fun r => if p r then g r else r) l) = map g (filter p l).
Proof.
  intros Hg. induction l as [|r l IH]; cbn; [reflexivity|].
  destruct (p r) eqn:E; cbn.
  - rewrite Hg, E. cbn. f_equal. exact IH.
  - rewrite E. exact IH.
Qed.

Section BatchClaims.

Context {P : Platform}.

(** The counters of a countable batch, one outcome later, are accepted. *)
Lemma countable_accepted batch (isSuccess : bool) :
  countable batch ->
  pg_integer (Batch.processed_files batch + 1)
  && pg_integer (Batch.failed_files batch + (if isSuccess then 0 else 1))
  = true.
Proof.
  intros [Hp Hf]. unfold pg_integer. destruct isSuccess;
    repeat (apply andb_true_iff; split); apply Z.leb_le; lia.
Qed.

(** What [updateUploadBatchProgress] does to a batch that exists. *)
Lemma updateUploadBatchProgress_found now uploadId (isSuccess : bool) db batch
    rest :
  filter (fun b => Batch.id b =? uploadId) (uploadBatchesTable db)
  = batch :: rest ->
  countable batch ->
  let isComplete :=
    Batch.total_files batch <=? Batch.processed_files batch + 1 in
  let s := mkBatchSet (Batch.processed_files batch + 1)
             (Batch.failed_files batch + (if isSuccess then 0 else 1))
             (if isComplete then completed else processing)
             (if isComplete then Some now else None) in
  exists db',
    updateUploadBatchProgress now uploadId isSuccess db = (Returned tt, db')
    /\ filter (fun b => Batch.id b =? uploadId) (uploadBatchesTable db')
       = applyBatchSet s batch :: map (applyBatchSet s) rest
    /\ electricityBillsTable db' = electricityBillsTable db.
Proof.
  intros Hf Hroom isComplete s.
  unfold updateUploadBatchProgress. rewrite rethrow_id.
  unfold bind, selectBatchesById, readDb. rewrite Hf.
  fold isComplete. fold s.
  unfold updateBatchesById. cbn [set_processed_files set_failed_files s].
  rewrite (countable_accepted batch isSuccess Hroom). unfold writeDb.
  eexists. split; [reflexivity|]. cbn [uploadBatchesTable electricityBillsTable].
  split; [|reflexivity].
  rewrite (filter_map_where (fun b => Batch.id b =? uploadId)
             (applyBatchSet s)) by reflexivity.
  rewrite Hf. reflexivity.
Qed.

(** C2, amended.  For every batch that has fewer processed files than
    total files and no completion time when a terminal outcome is
    recorded, and whose two counters the [integer] columns can still
    increment (32-bit integers below the largest): afterwards
    processed_files is one more, the status is 'completed' if and only if
    processed_files equals total_files, completed_at is non-null exactly
    when the status is 'completed', and it is the time of the call at the
    moment processed_files reaches total_files. *)
Theorem updateUploadBatchProgress_completes now uploadId (isSuccess : bool) db
    batch rest :
  filter (fun b => Batch.id b =? uploadId) (uploadBatchesTable db)
  = batch :: rest ->
  Batch.processed_files batch < Batch.total_files batch ->
  Batch.completed_at batch = None ->
  countable batch ->
  exists db' batch' rest',
    updateUploadBatchProgress now uploadId isSuccess db = (Returned tt, db')
    /\ filter (fun b => Batch.id b =? uploadId) (uploadBatchesTable db')
       = batch' :: rest'
    /\ Batch.total_files batch' = Batch.total_files batch
    /\ Batch.processed_files batch' = Batch.processed_files batch + 1
    /\ Batch.failed_files batch'
       = Batch.failed_files batch + (if isSuccess then 0 else 1)
    /\ (Batch.status batch' = completed
        <-> Batch.processed_files batch' = Batch.total_files batch')
    /\ (Batch.completed_at batch' <> None <-> Batch.status batch' = completed)
    /\ (Batch.processed_files batch' = Batch.total_files batch'
        -> Batch.completed_at batch' = Some now).
Proof.
  intros Hf Hlt Hnone Hroom.
  destruct (updateUploadBatchProgress_found now uploadId isSuccess db batch
              rest Hf Hroom) as (db' & Hrun & Hrows & _).
  eexists. eexists. eexists.
  split; [exact Hrun|]. split; [exact Hrows|].
  unfold applyBatchSet.
  cbn [Batch.total_files Batch.processed_files Batch.failed_files
       Batch.status Batch.completed_at set_processed_files set_failed_files
       set_status set_completed_at].
  rewrite Hnone.
  destruct (Z.leb_spec (Batch.total_files batch)
                       (Batch.processed_files batch + 1)) as [Hc|Hc];
    cbn [option_map orKeep].
  - repeat split; try reflexivity; try lia; try discriminate.
  - repeat split; try reflexivity; try lia; try discriminate;
      intros; congruence.
Qed.

(** An outcome recorded on a batch that already has all its files
    processed: the counters go up again, the status is 'completed' and
    completed_at becomes the time of this call. *)
Lemma updateUploadBatchProgress_again now uploadId (isSuccess : bool) db batch
    rest :
  filter (fun b => Batch.id b =? uploadId) (uploadBatchesTable db)
  = batch :: rest ->
  Batch.total_files batch <= Batch.processed_files batch ->
  countable batch ->
  exists db' batch' rest',
    updateUploadBatchProgress now uploadId isSuccess db = (Returned tt, db')
    /\ filter (fun b => Batch.id b =? uploadId) (uploadBatchesTable db')
       = batch' :: rest'
    /\ Batch.processed_files batch' = Batch.processed_files batch + 1
    /\ Batch.status batch' = completed
    /\ Batch.completed_at batch' = Some now.
Proof.
  intros Hf Hle Hroom.
  destruct (updateUploadBatchProgress_found now uploadId isSuccess db batch
              rest Hf Hroom) as (db' & Hrun & Hrows & _).
  eexists. eexists. eexists.
  split; [exact Hrun|]. split; [exact Hrows|].
  unfold applyBatchSet.
  cbn [Batch.processed_files Batch.status Batch.completed_at
       set_processed_files set_status set_completed_at].
  destruct (Z.leb_spec (Batch.total_files batch)
                       (Batch.processed_files batch + 1)); [|lia].
  repeat split.
Qed.


End BatchClaims.

Lemma updateUploadBatchProgress_completes_witness :
  exists db' batch' rest',
    updateUploadBatchProgress Sample.t1 1 true
      (Sample.dbOf 1000 Sample.jan1 []) = (Returned tt, db')
    /\ filter (fun b => Batch.id b =? 1) (uploadBatchesTable db')
       = batch' :: rest'
    /\ Batch.total_files batch' = 1
    /\ Batch.processed_files batch' = 0 + 1
    /\ Batch.failed_files batch' = 0 + 0
    /\ (Batch.status batch' = completed
        <-> Batch.processed_files batch' = Batch.total_files batch')
    /\ (Batch.completed_at batch' <> None <-> Batch.status batch' = completed)
    /\ (Batch.processed_files batch' = Batch.total_files batch'
        -> Batch.completed_at batch' = Some Sample.t1).
Proof.
  apply (updateUploadBatchProgress_completes Sample.t1
           1 true (Sample.dbOf 1000 Sample.jan1 []) Sample.batchOf1 []).
  - reflexivity.
  - reflexivity.
  - reflexivity.
  - unfold countable. cbn. lia.
Defined.

(** Against C2 as stated: an upload of one file, an outcome recorded at
    [t1] and another at [t2].  After the first the batch is completed at
    [t1]; after the second it is completed with 2 processed files out of 1,
    and its completion time is [t2]. *)
Lemma later_outcome_restamps :
  let db1 := snd (uploadZip Sample.t0 Sample.oneFile
                            emptyDB) in
  let db2 := snd (updateUploadBatchProgress Sample.t1
                                            1 true db1) in
  let db3 := snd (updateUploadBatchProgress Sample.t2
                                            1 true db2) in
  uploadBatchesTable db2
  = [Batch.mk 1 "one.zip" 1 1 0 completed Sample.t0 (Some Sample.t1)]
  /\ uploadBatchesTable db3
     = [Batch.mk 1 "one.zip" 1 2 0 completed Sample.t0 (Some Sample.t2)]
  /\ Some Sample.t2 <> Some Sample.t1.
Proof.
  cbv zeta. split; [vm_compute; reflexivity|].
  split; [vm_compute; reflexivity|]. discriminate.
Qed.



(** ** Bill records and the batch they belong to *)

Section FrameFacts.

Context {P : Platform}.

Lemma keeps_ret {A} (a : A) : keepsBatches (ret a).
Proof. intros db. reflexivity. Qed.

Lemma keeps_throw {A} e : keepsBatches (@throw A e).
Proof. intros db. reflexivity. Qed.

Lemma keeps_bind {A B} (m : Db A) (k : A -> Db B) :
  keepsBatches m -> (forall a, keepsBatches (k a)) -> keepsBatches (bind m k).
Proof.
  intros Hm Hk db. unfold bind. specialize (Hm db).
  destruct (m db) as [[a|e] db1]; cbn in *.
  - rewrite Hk. exact Hm.
  - exact Hm.
Qed.



Lemma keeps_readDb {A} (f : DB -> A) : keepsBatches (readDb f).
Proof. intros db. reflexivity. Qed.

Lemma keeps_firstRow {A} (rows : list A) : keepsBatches (firstRow rows).
Proof. destruct rows; [apply keeps_throw | apply keeps_ret]. Qed.

Lemma keeps_insertBills now vs : keepsBatches (insertBills now vs).
Proof. intros db. reflexivity. Qed.

Lemma keeps_updateBillsById x s : keepsBatches (updateBillsById x s).
Proof.
  unfold updateBillsById. destruct (storedBillSet s).
  - apply keeps_bind; [intros db; reflexivity | intros _; apply keeps_readDb].
  - apply keeps_throw.
Qed.

Lemma keeps_extractFromPDF buffer : keepsBatches (extractFromPDF buffer).
Proof.
  unfold extractFromPDF.
  repeat match goal with
         | |- keepsBatches (if ?c then _ else _) => destruct c
         end; first [apply keeps_throw | apply keeps_ret].
Qed.

Lemma keeps_extractFromImage buffer : keepsBatches (extractFromImage buffer).
Proof.
  unfold extractFromImage.
  repeat match goal with
         | |- keepsBatches (if ?c then _ else _) => destruct c
         end; first [apply keeps_throw | apply keeps_ret].
Qed.

End FrameFacts.

Create HintDb frame.
#[export] Hint Resolve keeps_ret keeps_throw keeps_readDb keeps_firstRow
  keeps_insertBills keeps_updateBillsById keeps_extractFromPDF
  keeps_extractFromImage : frame.


Section BillClaims.

Context {P : Platform}.

(** The database changes numbers only: the status of a [.set(...)] object
    is stored as given. *)
Lemma storedBillSet_status s s' :
  storedBillSet s = Some s' ->
  set_extraction_status s' = set_extraction_status s.
Proof.
  unfold storedBillSet.
  destruct (numericOpt (set_total_amount s)); [|discriminate].
  destruct (numericOpt (set_energy_consumption s)); [|discriminate].
  destruct (match set_corrected_amount s with
            | Some (Some v) => _ | _ => _ end); [|discriminate].
  intros [= <-]. reflexivity.
Qed.






(** A call of [updateBillResult] on a bill record that is already in a
    terminal state leaves the batches table as it was, counters and status
    included; when the columns take the values of the input, the stored
    record is overwritten with them and returned. *)
Lemma updateBillResult_terminal now input db existing rest :
  filter (fun r => BillRow.id r =? UpdateBillResultInput.id input)
         (electricityBillsTable db) = existing :: rest ->
  BillRow.extraction_status existing <> pending ->
  uploadBatchesTable (snd (updateBillResult now input db))
  = uploadBatchesTable db
  /\ forall s',
       storedBillSet (updateDataOf input) = Some s' ->
       updateBillResult now input db
       = (Returned (billOfRow now (applyBillSet s' existing)),
          withBillSet (UpdateBillResultInput.id input) s' db)
       /\ BillRow.extraction_status (applyBillSet s' existing)
          = UpdateBillResultInput.extraction_status input.
Proof.
  intros Hf Hterm.
  assert (Hpend : ExtractionStatus_eqb (BillRow.extraction_status existing)
                                       pending = false).
  { destruct (BillRow.extraction_status existing); [congruence | | ];
      reflexivity. }
  assert (Hrun :
    updateBillResult now input db
    = match storedBillSet (updateDataOf input) with
      | Some s => (Returned (billOfRow now (applyBillSet s existing)),
                   withBillSet (UpdateBillResultInput.id input) s db)
      | None => (Thrown DbError, db)
      end).
  { unfold updateBillResult. rewrite rethrow_id.
    unfold bind at 1. unfold selectBillsById at 1, readDb at 1. rewrite Hf.
    unfold updateBillsById.
    destruct (storedBillSet (updateDataOf input)) as [s|]; [|reflexivity].
    unfold bind, writeDb, selectBillsById, readDb, ret.
    rewrite Hpend.
    cbn [fst snd electricityBillsTable withBillSet].
    rewrite (filter_map_where
               (fun r => BillRow.id r =? UpdateBillResultInput.id input)
               (applyBillSet s)) by reflexivity.
    rewrite Hf. reflexivity. }
  rewrite Hrun. split.
  - destruct (storedBillSet (updateDataOf input)); reflexivity.
  - intros s' Hs. rewrite Hs. split; [reflexivity|].
    unfold applyBillSet. cbn [BillRow.extraction_status].
    rewrite (storedBillSet_status _ _ Hs). reflexivity.
Qed.



End BillClaims.

(** An upload of two files; the first bill is reported a success, then
    reported again as an error.  The second report overwrites the record and
    leaves the batch at one processed file and no failed one. *)
Lemma updateBillResult_terminal_example :
  let db1 := snd (uploadZip Sample.t0 Sample.twoFiles emptyDB) in
  let db2 := snd (updateBillResult (P := Sample.platform) Sample.t1
                                   Sample.firstResult db1) in
  let db3 := snd (updateBillResult (P := Sample.platform) Sample.t2
                                   Sample.secondResult db2) in
  uploadBatchesTable db2
  = [Batch.mk 1 "two.zip" 2 1 0 processing Sample.t0 None]
  /\ uploadBatchesTable db3 = uploadBatchesTable db2
  /\ electricityBillsTable db3
     = [BillRow.mk 1 "bill_1.pdf" 1 (Some 99.5%float) None None None error
                   (Some "could not read the bill"%string) Sample.t0;
        BillRow.mk 2 "bill_2.pdf" 1 None None None None pending None Sample.t0].
Proof.
  cbv zeta. split; [vm_compute; reflexivity|]. split.
  - apply (updateBillResult_terminal (P := Sample.platform) Sample.t2
             Sample.secondResult
             (snd (updateBillResult (P := Sample.platform) Sample.t1
                     Sample.firstResult
                     (snd (uploadZip Sample.t0 Sample.twoFiles emptyDB))))
             (BillRow.mk 1 "bill_1.pdf" 1 (Some 120%float) None None None
                         success None Sample.t0) []).
    + vm_compute. reflexivity.
    + discriminate.
  - vm_compute. reflexivity.
Defined.




(** [processBill] on a PDF and on an unreadable image, for a batch of one
    file: a successful and a failed record are added, and the batch still
    has no processed file. *)
Lemma processBill_example :
  let db1 := snd (uploadZip Sample.t0 Sample.oneFile emptyDB) in
  let db2 := snd (processBill (P := Sample.platform) Sample.t1 Sample.pdfFile
                              db1) in
  let db3 := snd (processBill (P := Sample.platform) Sample.t2 Sample.badImage
                              db2) in
  uploadBatchesTable db3
  = [Batch.mk 1 "one.zip" 1 0 0 processing Sample.t0 None]
  /\ map (fun r => (BillRow.id r, BillRow.extraction_status r,
                    BillRow.total_amount r, BillRow.error_message r))
         (electricityBillsTable db3)
     = [(1, pending, None, None);
        (2, success, Some 156.78%float, None);
        (3, error, None, Some "Image text is unreadable"%string)].
Proof. cbv zeta. split; vm_compute; reflexivity. Qed.

(** ** The report *)

Lemma countStatus_partition rows :
  Z.of_nat (List.length rows)
  = countStatus success rows + countStatus error rows
    + countStatus pending rows.
Proof.
  induction rows as [|r rows IH]; [reflexivity|].
  cbn [List.length countStatus]. rewrite Nat2Z.inj_succ, IH.
  destruct (BillRow.extraction_status r); cbn [ExtractionStatus_eqb]; lia.
Qed.

Lemma or_zero_numberOrZero x : Js.or_zero (numberOrZero x) = amountOrZero x.
Proof. destruct x; reflexivity. Qed.

Section ReportClaims.

Context {P : Platform}.

Lemma count_success now rows :
  Z.of_nat (List.length (filter isSuccess (map (billOfRow now) rows)))
  = countStatus success rows.
Proof.
  induction rows as [|r rows IH]; [reflexivity|].
  cbn [map filter countStatus]. unfold isSuccess at 1.
  cbn [billOfRow ElectricityBill.extraction_status].
  destruct (ExtractionStatus_eqb (BillRow.extraction_status r) success);
    cbn [List.length]; rewrite ?Nat2Z.inj_succ, IH; lia.
Qed.

Lemma count_error now rows :
  Z.of_nat (List.length (filter isError (map (billOfRow now) rows)))
  = countStatus error rows.
Proof.
  induction rows as [|r rows IH]; [reflexivity|].
  cbn [map filter countStatus]. unfold isError at 1.
  cbn [billOfRow ElectricityBill.extraction_status].
  destruct (ExtractionStatus_eqb (BillRow.extraction_status r) error);
    cbn [List.length]; rewrite ?Nat2Z.inj_succ, IH; lia.
Qed.

(** A sum of the report over the successful bills is the sum over the
    successful rows. *)
Lemma sum_success now f g rows :
  (forall r, f (billOfRow now r) = g r) ->
  forall acc,
    fold_left (fun sum bill => (sum + f bill)%float)
              (filter isSuccess (map (billOfRow now) rows)) acc
    = addSuccessful g rows acc.
Proof.
  intros Hfg. induction rows as [|r rows IH]; intros acc; [reflexivity|].
  cbn [map filter addSuccessful]. unfold isSuccess at 1.
  cbn [billOfRow ElectricityBill.extraction_status].
  destruct (BillRow.extraction_status r); cbn [ExtractionStatus_eqb fold_left];
    rewrite IH; [reflexivity | | reflexivity].
  rewrite <- Hfg. reflexivity.
Qed.

(** C5, amended.  For every existing batch, the report lists the bill
    records of the batch and its summary has: in total_bills their number;
    in successful_extractions and failed_extractions the numbers of those
    in status 'success' and 'error', pending records counting toward
    neither; as totals of amount and consumption the sums over the
    'success' records only, an absent number counting for 0; the corrected
    total uses corrected_amount, and total_amount when corrected_amount is
    absent, zero or NaN. *)
Theorem generateReport_summary now input db :
  filter (fun b => Batch.id b =? GenerateReportInput.upload_id input)
         (uploadBatchesTable db) <> [] ->
  let rows :=
    filter (fun r => BillRow.upload_id r =? GenerateReportInput.upload_id input)
           (electricityBillsTable db) in
  exists report,
    generateReport now input db = (Returned report, db)
    /\ ConsolidatedReport.bills report = map (billOfRow now) rows
    /\ Summary.total_bills (ConsolidatedReport.summary report)
       = Z.of_nat (List.length rows)
    /\ Summary.successful_extractions (ConsolidatedReport.summary report)
       = countStatus success rows
    /\ Summary.failed_extractions (ConsolidatedReport.summary report)
       = countStatus error rows
    /\ Summary.total_bills (ConsolidatedReport.summary report)
       = countStatus success rows + countStatus error rows
         + countStatus pending rows
    /\ Summary.total_original_amount (ConsolidatedReport.summary report)
       = addSuccessful (fun r => amountOrZero (BillRow.total_amount r)) rows 0
    /\ Summary.total_corrected_amount (ConsolidatedReport.summary report)
       = addSuccessful correctedOrTotalOfRow rows 0
    /\ Summary.total_energy_consumption (ConsolidatedReport.summary report)
       = addSuccessful (fun r => amountOrZero (BillRow.energy_consumption r))
                       rows 0.
Proof.
  intros Hb rows.
  unfold generateReport. rewrite rethrow_id.
  unfold bind, selectBatchesById, selectBillsByUpload, readDb, ret.
  destruct (filter _ (uploadBatchesTable db)) as [|b bs]; [congruence|].
  cbn [List.length Nat.eqb]. fold rows.
  eexists. split; [reflexivity|].
  cbn [ConsolidatedReport.bills ConsolidatedReport.summary].
  unfold summaryOf, sumOver.
  cbn [Summary.total_bills Summary.successful_extractions
       Summary.failed_extractions Summary.total_original_amount
       Summary.total_corrected_amount Summary.total_energy_consumption].
  rewrite length_map, count_success, count_error.
  repeat split.
  - apply countStatus_partition.
  - apply sum_success. intros r. cbn. apply or_zero_numberOrZero.
  - apply sum_success. intros r. unfold correctedOrTotal, correctedOrTotalOfRow.
    cbn [billOfRow ElectricityBill.corrected_amount
         ElectricityBill.total_amount].
    rewrite or_zero_numberOrZero. reflexivity.
  - apply sum_success. intros r. cbn. apply or_zero_numberOrZero.
Qed.

End ReportClaims.

(** The report test: two successful bills of 100 and 200, corrected to 110
    and 210, and a failed one. *)
Lemma generateReport_summary_witness :
  exists report,
    generateReport Sample.t2 Sample.reportInput
                   Sample.reportDb = (Returned report, Sample.reportDb)
    /\ ConsolidatedReport.summary report
       = Summary.mk 3 2 1 300 320 400.
Proof.
  destruct (generateReport_summary Sample.t2
              Sample.reportInput Sample.reportDb)
    as (report & Hrun & _ & Htotal & Hok & Hfailed & _ & Horig & Hcorr & Hcons).
  - vm_compute. discriminate.
  - exists report. split; [exact Hrun|].
    destruct report as [bills [n ok ko orig corr cons]]. cbn in *.
    rewrite Htotal, Hok, Hfailed, Horig, Hcorr, Hcons.
    vm_compute. reflexivity.
Defined.

(** Against C5 as stated: a successful bill of 100 whose corrected amount is
    present and 0 adds 100, not 0, to the corrected total. *)
Lemma zero_corrected_amount_falls_back :
  exists report,
    generateReport Sample.t2 Sample.reportInput
                   Sample.zeroCorrectedDb = (Returned report, Sample.zeroCorrectedDb)
    /\ Summary.total_corrected_amount (ConsolidatedReport.summary report)
       = 100%float
    /\ addSuccessful spec_correctedOfRow
         (electricityBillsTable Sample.zeroCorrectedDb) 0 = 0%float
    /\ Summary.total_corrected_amount (ConsolidatedReport.summary report)
       <> addSuccessful spec_correctedOfRow
            (electricityBillsTable Sample.zeroCorrectedDb) 0.
Proof.
  eexists. split; [vm_compute; reflexivity|].
  split; [reflexivity|]. split; [vm_compute; reflexivity|].
  replace (addSuccessful _ _ _) with 0%float by (vm_compute; reflexivity).
  cbn [Summary.total_corrected_amount ConsolidatedReport.summary].
  floats_differ.
Qed.

(** ** The load of the rates *)

Section LoadClaims.

Context {P : Platform}.

Lemma insertRate_eq now date rate db :
  insertRate now date rate db
  = match pg_numeric 6 4 rate with
    | Some v =>
        (Returned tt,
         mkDB (uploadBatchesTable db) (electricityBillsTable db)
              (selicRatesTable db ++ [SelicRate.mk (nextRateId db) date v now])
              (nextBatchId db) (nextBillId db) (nextRateId db + 1))
    | None => (Thrown DbError, db)
    end.
Proof.
  unfold insertRate, to_numeric.
  destruct (pg_numeric 6 4 rate); reflexivity.
Qed.

(** One turn of the loop does to the counters and to the table what the
    outcome of its line says, and never throws. *)
Lemma loadLine_outcome now st line db :
  loadLine now st line db
  = match lineOutcome (existingDates st) line with
    | LineLoaded date v =>
        (Returned (countLoaded (Date.isoDate date) st),
         withLoaded now [LineLoaded date v] db)
    | LineSkipped => (Returned (countSkipped st), db)
    | LineFailed => (Returned (countError st), db)
    end.
Proof.
  unfold loadLine, lineOutcome, try_catch, column.
  destruct (map Js.trim (Js.split "," line)) as [|dateStr [|rateStr cols]];
    cbn [nth_error]; try reflexivity.
  - destruct (Js.nonempty dateStr); reflexivity.
  - destruct (Js.nonempty dateStr); [|reflexivity].
    destruct (Js.nonempty rateStr); [|reflexivity]. cbn [andb].
    destruct (Date_parse dateStr) as [date|]; [|reflexivity].
    unfold Js.isNaN.
    destruct (is_nan (parseFloat rateStr)); [reflexivity|].
    destruct (hasDate (Date.isoDate date) (existingDates st)); [reflexivity|].
    unfold bind. rewrite insertRate_eq.
    destruct (pg_numeric 6 4 (parseFloat rateStr)); reflexivity.
Qed.

Lemma countOf_cons p o os :
  countOf p (o :: os) = (if p o then 1 else 0) + countOf p os.
Proof.
  unfold countOf. cbn [filter]. destruct (p o); cbn [List.length]; lia.
Qed.

Lemma withLoaded_loaded now date v os db :
  withLoaded now os (withLoaded now [LineLoaded date v] db)
  = withLoaded now (LineLoaded date v :: os) db.
Proof.
  unfold withLoaded. rewrite (countOf_cons isLoaded (LineLoaded date v) os).
  replace (countOf isLoaded [LineLoaded date v]) with 1 by reflexivity.
  cbn [uploadBatchesTable electricityBillsTable selicRatesTable
       nextBatchId nextBillId nextRateId loadedRows isLoaded].
  rewrite <- app_assoc. cbn [app]. f_equal. lia.
Qed.

(** The loop over the lines adds to each counter the number of lines of
    that outcome, adds the rows of the loaded lines, and never throws. *)
Lemma loadLines_outcomes now lines :
  forall st db,
    let os := lineOutcomes (existingDates st) lines in
    exists keys,
      loadLines now st lines db
      = (Returned (mkLoadState (loaded st + countOf isLoaded os)
                               (skipped st + countOf isSkipped os)
                               (errors st + countOf isFailed os) keys),
         withLoaded now os db).
Proof.
  induction lines as [|line rest IH]; intros st db os.
  - exists (existingDates st). subst os. cbn [loadLines lineOutcomes].
    unfold ret, withLoaded, countOf. cbn [filter List.length loadedRows].
    rewrite !Z.add_0_r, app_nil_r. destruct st, db. reflexivity.
  - subst os. cbn [loadLines lineOutcomes]. unfold bind.
    rewrite loadLine_outcome. rewrite !countOf_cons.
    destruct (lineOutcome (existingDates st) line) as [date v| |].
    + destruct (IH (countLoaded (Date.isoDate date) st)
                   (withLoaded now [LineLoaded date v] db)) as (keys & ->).
      exists keys. cbn [countLoaded loaded skipped errors existingDates
                        isLoaded isSkipped isFailed].
      apply f_equal2; [apply f_equal; f_equal; lia|].
      apply withLoaded_loaded.
    + destruct (IH (countSkipped st) db) as (keys & ->).
      exists keys. cbn [countSkipped loaded skipped errors existingDates
                        isLoaded isSkipped isFailed].
      apply f_equal2; [apply f_equal; f_equal; lia|].
      unfold withLoaded. rewrite countOf_cons. cbn [loadedRows isLoaded].
      reflexivity.
    + destruct (IH (countError st) db) as (keys & ->).
      exists keys. cbn [countError loaded skipped errors existingDates
                        isLoaded isSkipped isFailed].
      apply f_equal2; [apply f_equal; f_equal; lia|].
      unfold withLoaded. rewrite countOf_cons. cbn [loadedRows isLoaded].
      reflexivity.
Qed.

Lemma outcomes_counted os :
  countOf isLoaded os + countOf isSkipped os + countOf isFailed os
  = Z.of_nat (List.length os).
Proof.
  induction os as [|o os IH]; [reflexivity|].
  rewrite !countOf_cons. cbn [List.length]. rewrite Nat2Z.inj_succ.
  destruct o; cbn [isLoaded isSkipped isFailed]; lia.
Qed.

Lemma lineOutcomes_length lines :
  forall existing,
    List.length (lineOutcomes existing lines) = List.length lines.
Proof.
  induction lines as [|line rest IH]; intros existing; [reflexivity|].
  cbn [lineOutcomes List.length]. rewrite IH. reflexivity.
Qed.

(** C4, amended.  For every rate file, the bulk load takes each data line
    in turn and never throws: a line that lacks a date or a rate, or whose
    date or rate does not parse, counts as an error and is skipped; a line
    whose calendar date is already in the table or on an earlier loaded
    line counts as skipped and is not inserted; any other line is inserted
    and counts as loaded, or counts as an error when the table rejects its
    rate.  The three counters add up to the number of data lines, and the
    table gains the rows of the loaded lines, in order. *)
Theorem loadSelicData_outcomes now csvContent db :
  let os :=
    lineOutcomes (map (fun r => Date.isoDate (SelicRate.date r))
                      (selicRatesTable db))
                 (dataLinesOf csvContent) in
  loadSelicData now (Some csvContent) db
  = (Returned (LoadResult.mk (countOf isLoaded os) (countOf isSkipped os)
                             (countOf isFailed os)),
     withLoaded now os db)
  /\ countOf isLoaded os + countOf isSkipped os + countOf isFailed os
     = Z.of_nat (List.length (dataLinesOf csvContent)).
Proof.
  intros os. split.
  - unfold loadSelicData. rewrite rethrow_id.
    unfold bind at 1. unfold readDb at 1. unfold bind.
    destruct (loadLines_outcomes now (dataLinesOf csvContent)
                (mkLoadState 0 0 0
                   (map (fun r => Date.isoDate (SelicRate.date r))
                        (selicRatesTable db))) db) as (keys & ->).
    cbn [loaded skipped errors existingDates ret]. reflexivity.
  - subst os. rewrite outcomes_counted, lineOutcomes_length. reflexivity.
Qed.

(** Without the file, the load reports one error and touches nothing. *)
Lemma loadSelicData_missing_file now db :
  loadSelicData now None db = (Returned (LoadResult.mk 0 0 1), db).
Proof. reflexivity. Qed.

End LoadClaims.

(** A well-formed line, a line for the same day and a malformed line:
    one loaded, one skipped, one error. *)
Lemma loadSelicData_same_day :
  fst (loadSelicData (P := Sample.platform) Sample.t0 (Some Sample.sameDayFile)
                     emptyDB)
  = Returned (LoadResult.mk 1 1 1).
Proof. vm_compute. reflexivity. Qed.

(** Against C4 as stated: a well-formed line for 1 January 2023, a line for
    15 January 2023, whose calendar month is then already present, and a
    malformed line.  The second line is inserted and counted as loaded:
    the load reports 2 loaded, 0 skipped, 1 error, and the table has both
    rows of January 2023. *)
Lemma same_month_line_is_loaded :
  spec_monthPresent (Date.ymd 2023 1 15) [Date.ymd 2023 1 1] = true
  /\ loadSelicData (P := Sample.platform) Sample.t0 (Some Sample.sameMonthFile)
                   emptyDB
     = (Returned (LoadResult.mk 2 0 1),
        mkDB [] []
             [SelicRate.mk 1 (Date.ymd 2023 1 1) 0.0125 Sample.t0;
              SelicRate.mk 2 (Date.ymd 2023 1 15) 0.011 Sample.t0]
             1 1 3)
  /\ LoadResult.mk 2 0 1 <> LoadResult.mk 1 1 1.
Proof.
  split; [reflexivity|]. split; [vm_compute; reflexivity|]. discriminate.
Qed.

(** * Further properties of the handlers *)

(** ** The batch progress tracker *)

Lemma updateUploadBatchProgress_run now uploadId (isSuccess : bool) db batch
    rest :
  filter (fun b => Batch.id b =? uploadId) (uploadBatchesTable db)
  = batch :: rest ->
  let isComplete :=
    Batch.total_files batch <=? Batch.processed_files batch + 1 in
  let s := mkBatchSet (Batch.processed_files batch + 1)
             (Batch.failed_files batch + (if isSuccess then 0 else 1))
             (if isComplete then completed else processing)
             (if isComplete then Some now else None) in
  updateUploadBatchProgress now uploadId isSuccess db
  = if pg_integer (Batch.processed_files batch + 1)
       && pg_integer (Batch.failed_files batch
                      + (if isSuccess then 0 else 1))
    then
      (Returned tt,
       mkDB (map (fun b => if Batch.id b =? uploadId then applyBatchSet s b
                           else b) (uploadBatchesTable db))
            (electricityBillsTable db) (selicRatesTable db) (nextBatchId db)
            (nextBillId db) (nextRateId db))
    else (Thrown DbError, db).
Proof.
  intros Hf isComplete s.
  unfold updateUploadBatchProgress. rewrite rethrow_id.
  unfold bind, selectBatchesById, readDb. rewrite Hf.
  fold isComplete. fold s. unfold updateBatchesById.
  cbn [set_processed_files set_failed_files s].
  destruct (pg_integer (Batch.processed_files batch + 1)
            && pg_integer (Batch.failed_files batch
                           + (if isSuccess then 0 else 1)));
    reflexivity.
Qed.

(** A consistent batch below the largest 32-bit integer can count one more
    outcome. *)
Lemma consistent_accepted batch (isSuccess : bool) :
  batchConsistent batch ->
  Batch.processed_files batch < 2147483647 ->
  pg_integer (Batch.processed_files batch + 1)
  && pg_integer (Batch.failed_files batch + (if isSuccess then 0 else 1))
  = true.
Proof.
  intros (Hcount & _) Hmax. unfold pg_integer. destruct isSuccess;
    repeat (apply andb_true_iff; split); apply Z.leb_le; lia.
Qed.

Lemma updateUploadBatchProgress_missing now uploadId (isSuccess : bool) db :
  filter (fun b => Batch.id b =? uploadId) (uploadBatchesTable db) = [] ->
  updateUploadBatchProgress now uploadId isSuccess db
  = (Thrown (Error ("Upload batch with ID " ++ Js.string_of_Z uploadId
                    ++ " not found")%string), db).
Proof.
  intros Hf. unfold updateUploadBatchProgress. rewrite rethrow_id.
  unfold bind, selectBatchesById, readDb. rewrite Hf. reflexivity.
Qed.

(** Rows that the [where] clause does not select are not touched. *)
Lemma filter_others_update {A} (p : A -> bool) (g : A -> A) l :
  (forall r, p (g r) = p r) ->
  filter (fun r => negb (p r)) (map (fun r => if p r then g r else r) l)
  = filter (fun r => negb (p r)) l.
Proof.
  intros Hg. induction l as [|r l IH]; [reflexivity|]. cbn [map filter].
  destruct (p r) eqn:E; cbn [negb].
  - rewrite Hg, E. exact IH.
  - rewrite E. cbn [negb]. f_equal. exact IH.
Qed.

(** X1.  Recording an outcome on a batch whose counters, status and
    completion time agree, and whose processed_files is below the largest
    32-bit integer, leaves them in agreement: total_files is kept,
    processed_files is one more, a completed batch stays completed with a
    completion time; the other batches, the bills and the rates are not
    touched. *)
Theorem updateUploadBatchProgress_keeps_consistent now uploadId
    (isSuccess : bool) db batch rest :
  filter (fun b => Batch.id b =? uploadId) (uploadBatchesTable db)
  = batch :: rest ->
  batchConsistent batch ->
  Batch.processed_files batch < 2147483647 ->
  exists db' batch' rest',
    updateUploadBatchProgress now uploadId isSuccess db = (Returned tt, db')
    /\ filter (fun b => Batch.id b =? uploadId) (uploadBatchesTable db')
       = batch' :: rest'
    /\ batchConsistent batch'
    /\ Batch.total_files batch' = Batch.total_files batch
    /\ Batch.processed_files batch' = Batch.processed_files batch + 1
    /\ (Batch.status batch = completed ->
        Batch.status batch' = completed /\ Batch.completed_at batch' <> None)
    /\ filter (fun b => negb (Batch.id b =? uploadId)) (uploadBatchesTable db')
       = filter (fun b => negb (Batch.id b =? uploadId)) (uploadBatchesTable db)
    /\ electricityBillsTable db' = electricityBillsTable db
    /\ selicRatesTable db' = selicRatesTable db.
Proof.
  intros Hf Hcons Hmax.
  rewrite (updateUploadBatchProgress_run now uploadId isSuccess db batch rest Hf).
  rewrite (consistent_accepted batch isSuccess Hcons Hmax).
  destruct Hcons as (Hcount & Hstate).
  eexists. eexists. eexists. split; [reflexivity|].
  cbn [uploadBatchesTable electricityBillsTable selicRatesTable].
  rewrite (filter_map_where (fun b => Batch.id b =? uploadId)) by reflexivity.
  rewrite (filter_others_update (fun b => Batch.id b =? uploadId))
    by reflexivity.
  rewrite Hf. cbn [map]. split; [reflexivity|].
  unfold batchConsistent, applyBatchSet.
  cbn [Batch.total_files Batch.processed_files Batch.failed_files
       Batch.status Batch.completed_at set_processed_files set_failed_files
       set_status set_completed_at].
  assert (Hf' : 0 <= Batch.failed_files batch
                     + (if isSuccess then 0 else 1)
                <= Batch.processed_files batch + 1)
    by (destruct isSuccess; lia).
  destruct (Z.leb_spec (Batch.total_files batch)
                       (Batch.processed_files batch + 1)) as [Hc|Hc];
    cbn [option_map orKeep].
  - split.
    { split; [exact Hf'|]. left.
      split; [reflexivity|]. split; [discriminate | exact Hc]. }
    split; [reflexivity|]. split; [reflexivity|].
    split; [intros _; split; [reflexivity | discriminate]|].
    split; [reflexivity|]. split; reflexivity.
  - destruct Hstate as [(Hs & Hat & Hall)|(Hs & Hat & Hleft)]; [lia|].
    split.
    { split; [exact Hf'|]. right.
      split; [reflexivity|]. split; [exact Hat | left; exact Hc]. }
    split; [reflexivity|]. split; [reflexivity|].
    split; [intros Hcompleted; congruence|].
    split; [reflexivity|]. split; reflexivity.
Qed.

Lemma updateUploadBatchProgress_keeps_consistent_witness :
  batchConsistent (newBatch Sample.t0 emptyDB Sample.twoFiles)
  /\ exists db' batch' rest',
       updateUploadBatchProgress Sample.t1 1 false
         (snd (uploadZip Sample.t0 Sample.twoFiles emptyDB))
       = (Returned tt, db')
       /\ filter (fun b => Batch.id b =? 1) (uploadBatchesTable db')
          = batch' :: rest'
       /\ batchConsistent batch'
       /\ Batch.processed_files batch' = 1.
Proof.
  assert (Hc : batchConsistent (newBatch Sample.t0 emptyDB Sample.twoFiles)).
  { split; [cbn; lia|]. right. repeat split. left. reflexivity. }
  split; [exact Hc|].
  destruct (updateUploadBatchProgress_keeps_consistent Sample.t1 1 false
              (snd (uploadZip Sample.t0 Sample.twoFiles emptyDB))
              (newBatch Sample.t0 emptyDB Sample.twoFiles) [] eq_refl Hc
              eq_refl)
    as (db' & batch' & rest' & Hrun & Hf & Hcons & _ & Hp & _).
  exists db', batch', rest'.
  split; [exact Hrun | split; [exact Hf | split; [exact Hcons | exact Hp]]].
Defined.


(** A batch that has counted 2147483647 outcomes takes no more: the update
    is rejected and the row stays as it was. *)
Lemma full_counter_is_rejected :
  updateUploadBatchProgress Sample.t1 1 true Sample.fullCounterDb
  = (Thrown DbError, Sample.fullCounterDb).
Proof. vm_compute. reflexivity. Qed.

(** ** The accounting of bill records on their batch *)

Lemma terminalCount_app u l1 l2 :
  terminalCount u (l1 ++ l2) = terminalCount u l1 + terminalCount u l2.
Proof.
  unfold terminalCount. rewrite filter_app, length_app. lia.
Qed.

Lemma terminalCount_one u r :
  terminalCount u [r]
  = if (BillRow.upload_id r =? u) && isTerminal r then 1 else 0.
Proof.
  unfold terminalCount. cbn [filter].
  destruct ((BillRow.upload_id r =? u) && isTerminal r); reflexivity.
Qed.

Lemma map_update_none x (g : BillRow.t -> BillRow.t) l :
  (forall r, In r l -> BillRow.id r <> x) ->
  map (fun r => if BillRow.id r =? x then g r else r) l = l.
Proof.
  induction l as [|r l IH]; intros H; [reflexivity|]. cbn [map].
  destruct (Z.eqb_spec (BillRow.id r) x) as [E|_].
  - exfalso. apply (H r); [left; reflexivity | exact E].
  - f_equal. apply IH. intros r' Hin. apply H. right. exact Hin.
Qed.

(** With distinct numbers, a record is alone with its number. *)
Lemma distinct_split bills e :
  NoDup (map BillRow.id bills) -> In e bills ->
  exists l1 l2,
    bills = l1 ++ e :: l2
    /\ (forall r, In r l1 -> BillRow.id r <> BillRow.id e)
    /\ (forall r, In r l2 -> BillRow.id r <> BillRow.id e).
Proof.
  induction bills as [|r bills IH]; intros Hnd Hin; [destruct Hin|].
  cbn [map] in Hnd. apply NoDup_cons_iff in Hnd. destruct Hnd as [Hnotin Hnd].
  destruct Hin as [->|Hin].
  - exists [], bills. split; [reflexivity|]. split; [intros r []|].
    intros r Hr E. apply Hnotin. rewrite <- E. apply in_map. exact Hr.
  - destruct (IH Hnd Hin) as (l1 & l2 & -> & H1 & H2).
    exists (r :: l1), l2. split; [reflexivity|]. split; [|exact H2].
    intros r' [<-|Hr']; [|apply H1; exact Hr'].
    intros E. apply Hnotin. rewrite E. apply in_map.
    apply in_or_app. right. left. reflexivity.
Qed.

(** Updating the one record numbered [x] changes the count of a batch by
    what that record contributes before and after. *)
Lemma terminalCount_update u x (g : BillRow.t -> BillRow.t) bills e :
  NoDup (map BillRow.id bills) -> In e bills -> BillRow.id e = x ->
  terminalCount u (map (fun r => if BillRow.id r =? x then g r else r) bills)
  = terminalCount u bills - terminalCount u [e] + terminalCount u [g e].
Proof.
  intros Hnd Hin Hx.
  destruct (distinct_split bills e Hnd Hin) as (l1 & l2 & -> & H1 & H2).
  rewrite Hx in H1, H2.
  rewrite map_app. cbn [map]. rewrite (proj2 (Z.eqb_eq _ _) Hx).
  rewrite (map_update_none x g l1 H1), (map_update_none x g l2 H2).
  change (l1 ++ g e :: l2) with (l1 ++ [g e] ++ l2).
  change (l1 ++ e :: l2) with (l1 ++ [e] ++ l2).
  rewrite !terminalCount_app. lia.
Qed.

Section Accounting.

Context {P : Platform}.

(** The steps of [updateBillResult] on a record that exists, when the
    columns take the values of the input. *)
Lemma updateBillResult_run now input db existing rest s' :
  filter (fun r => BillRow.id r =? UpdateBillResultInput.id input)
         (electricityBillsTable db) = existing :: rest ->
  storedBillSet (updateDataOf input) = Some s' ->
  updateBillResult now input db
  = if ExtractionStatus_eqb (BillRow.extraction_status existing) pending then
      match updateUploadBatchProgress now (BillRow.upload_id existing)
              (ExtractionStatus_eqb
                 (UpdateBillResultInput.extraction_status input) success)
              (withBillSet (UpdateBillResultInput.id input) s' db) with
      | (Returned _, db2) =>
          (Returned (billOfRow now (applyBillSet s' existing)), db2)
      | (Thrown e, db2) => (Thrown e, db2)
      end
    else (Returned (billOfRow now (applyBillSet s' existing)),
          withBillSet (UpdateBillResultInput.id input) s' db).
Proof.
  intros Hf Hs. unfold updateBillResult. rewrite rethrow_id.
  unfold bind at 1. unfold selectBillsById at 1, readDb at 1. rewrite Hf.
  unfold updateBillsById. rewrite Hs.
  unfold bind, writeDb, selectBillsById, readDb, ret.
  cbn [fst snd electricityBillsTable withBillSet].
  rewrite (filter_map_where
             (fun r => BillRow.id r =? UpdateBillResultInput.id input)
             (applyBillSet s')) by reflexivity.
  rewrite Hf. cbn [map firstRow ret].
  destruct (ExtractionStatus_eqb (BillRow.extraction_status existing) pending).
  - destruct (updateUploadBatchProgress _ _ _ _) as [[[]|e] db2]; reflexivity.
  - reflexivity.
Qed.

Lemma updateBillResult_no_bill now input db :
  filter (fun r => BillRow.id r =? UpdateBillResultInput.id input)
         (electricityBillsTable db) = [] ->
  updateBillResult now input db
  = (Thrown (Error ("Bill with ID "
                    ++ Js.string_of_Z (UpdateBillResultInput.id input)
                    ++ " not found")%string), db).
Proof.
  intros Hf. unfold updateBillResult. rewrite rethrow_id.
  unfold bind, selectBillsById, readDb. rewrite Hf. reflexivity.
Qed.

Lemma updateBillResult_rejected now input db existing rest :
  filter (fun r => BillRow.id r =? UpdateBillResultInput.id input)
         (electricityBillsTable db) = existing :: rest ->
  storedBillSet (updateDataOf input) = None ->
  updateBillResult now input db = (Thrown DbError, db).
Proof.
  intros Hf Hs. unfold updateBillResult. rewrite rethrow_id.
  unfold bind at 1. unfold selectBillsById at 1, readDb at 1. rewrite Hf.
  unfold updateBillsById. rewrite Hs. reflexivity.
Qed.

Lemma filter_head_in {A} (p : A -> bool) l a rest :
  filter p l = a :: rest -> In a l /\ p a = true.
Proof.
  intros H. apply filter_In. rewrite H. left. reflexivity.
Qed.

Lemma isTerminal_stored s s' r st :
  storedBillSet s = Some s' -> set_extraction_status s = Some st ->
  isTerminal (applyBillSet s' r)
  = negb (ExtractionStatus_eqb st pending).
Proof.
  intros Hs Hst. unfold isTerminal, applyBillSet.
  cbn [BillRow.extraction_status].
  rewrite (storedBillSet_status _ _ Hs), Hst. reflexivity.
Qed.

End Accounting.

Section AccountingTheorems.

Context {P : Platform}.

(** X3.  When the batches have counted their records that left 'pending',
    their counters are 32-bit integers below the largest one, and the
    records have distinct numbers, a result with a terminal status
    reported through [updateBillResult] keeps the count right, whether the
    call returns or throws: a record is counted once, when it leaves
    'pending', and not again when it is overwritten. *)
Theorem updateBillResult_keeps_tracked now input db :
  tracked db -> distinctBills db ->
  UpdateBillResultInput.extraction_status input <> pending ->
  (forall b, In b (uploadBatchesTable db) -> countable b) ->
  tracked (snd (updateBillResult now input db))
  /\ distinctBills (snd (updateBillResult now input db)).
Proof.
  intros Htr Hnd Hst Hroom.
  set (x := UpdateBillResultInput.id input).
  destruct (filter (fun r => BillRow.id r =? x) (electricityBillsTable db))
    as [|existing rest] eqn:Hf.
  { rewrite (updateBillResult_no_bill now input db Hf). auto. }
  destruct (storedBillSet (updateDataOf input)) as [s'|] eqn:Hs.
  2: { rewrite (updateBillResult_rejected now input db existing rest Hf Hs).
       auto. }
  rewrite (updateBillResult_run now input db existing rest s' Hf Hs).
  destruct (filter_head_in _ _ _ _ Hf) as [Hin Hid]. apply Z.eqb_eq in Hid.
  assert (Hterm : isTerminal (applyBillSet s' existing) = true).
  { rewrite (isTerminal_stored (updateDataOf input) s' existing
               (UpdateBillResultInput.extraction_status input) Hs eq_refl).
    destruct (UpdateBillResultInput.extraction_status input);
      [congruence | reflexivity | reflexivity]. }
  assert (Hcount : forall u,
    terminalCount u (electricityBillsTable (withBillSet x s' db))
    = terminalCount u (electricityBillsTable db)
      + (if (BillRow.upload_id existing =? u) && negb (isTerminal existing)
         then 1 else 0)).
  { intros u. unfold withBillSet. cbn [electricityBillsTable].
    pose proof (terminalCount_update u x (applyBillSet s')
                  (electricityBillsTable db) existing Hnd Hin Hid) as Hupd.
    rewrite Hupd.
    rewrite !terminalCount_one. cbn [applyBillSet BillRow.upload_id].
    rewrite Hterm.
    destruct (BillRow.upload_id existing =? u), (isTerminal existing);
      cbn [andb negb]; lia. }
  assert (Hnd1 : distinctBills (withBillSet x s' db)).
  { unfold distinctBills, withBillSet. cbn [electricityBillsTable].
    rewrite map_map.
    replace (map _ (electricityBillsTable db))
      with (map BillRow.id (electricityBillsTable db)); [exact Hnd|].
    apply map_ext. intros r. destruct (BillRow.id r =? x); reflexivity. }
  unfold isTerminal in Hcount.
  destruct (ExtractionStatus_eqb (BillRow.extraction_status existing) pending)
    eqn:Hpend; cbn [negb] in Hcount.
  - (* the record leaves 'pending': its batch is told *)
    set (u := BillRow.upload_id existing) in *.
    destruct (filter (fun b => Batch.id b =? u)
                     (uploadBatchesTable (withBillSet x s' db)))
      as [|batch others] eqn:Hb.
    + rewrite (updateUploadBatchProgress_missing now u _ _ Hb).
      cbn [snd]. split; [|exact Hnd1].
      intros b Hbin. rewrite Hcount.
      destruct (Z.eqb_spec u (Batch.id b)) as [E|_]; cbn [andb].
      * exfalso.
        assert (Hin' : In b (filter (fun b => Batch.id b =? u)
                               (uploadBatchesTable (withBillSet x s' db)))).
        { apply filter_In. split; [exact Hbin|]. apply Z.eqb_eq. auto. }
        rewrite Hb in Hin'. destruct Hin'.
      * rewrite Z.add_0_r. apply Htr. exact Hbin.
    + rewrite (updateUploadBatchProgress_run now u _ _ batch others Hb).
      destruct (filter_head_in _ _ _ _ Hb) as [Hbatch Hbid].
      apply Z.eqb_eq in Hbid.
      rewrite (countable_accepted batch _ (Hroom batch Hbatch)).
      cbn [snd]. split; [|exact Hnd1].
      intros b' Hbin. cbn [uploadBatchesTable electricityBillsTable] in *.
      apply in_map_iff in Hbin. destruct Hbin as (b & Eb & Hbin).
      destruct (Z.eqb_spec (Batch.id b) u) as [E|NE]; subst b'.
      * unfold applyBatchSet. cbn [Batch.processed_files Batch.id
          set_processed_files].
        rewrite E.
        rewrite (Hcount u), Z.eqb_refl. cbn [andb].
        rewrite (Htr batch Hbatch), Hbid. reflexivity.
      * rewrite (Hcount (Batch.id b)).
        destruct (Z.eqb_spec u (Batch.id b)) as [E|_]; [congruence|].
        cbn [andb]. rewrite Z.add_0_r. apply Htr. exact Hbin.
  - (* the record was terminal already: no batch is told *)
    cbn [snd]. split; [|exact Hnd1].
    intros b Hbin. rewrite Hcount, andb_false_r, Z.add_0_r.
    apply Htr. exact Hbin.
Qed.

End AccountingTheorems.

Lemma updateBillResult_keeps_tracked_witness :
  tracked (snd (updateBillResult (P := Sample.platform) Sample.t1
                  Sample.firstResult
                  (snd (uploadZip Sample.t0 Sample.twoFiles emptyDB))))
  /\ distinctBills (snd (updateBillResult (P := Sample.platform) Sample.t1
                           Sample.firstResult
                           (snd (uploadZip Sample.t0 Sample.twoFiles emptyDB)))).
Proof.
  apply (updateBillResult_keeps_tracked (P := Sample.platform)).
  - intros b Hb. vm_compute in Hb. destruct Hb as [<-|[]]. reflexivity.
  - unfold distinctBills. vm_compute.
    repeat constructor; cbn; intuition discriminate.
  - discriminate.
  - intros b Hb. vm_compute in Hb. destruct Hb as [<-|[]].
    unfold countable. cbn. lia.
Defined.

(** ** Uploads *)





(** The upload of 3000000000 files is rejected. *)
Lemma huge_upload_is_rejected :
  uploadZip Sample.t0 Sample.hugeZip emptyDB = (Thrown DbError, emptyDB).
Proof. vm_compute. reflexivity. Qed.




(** ** Processing a file *)

Section Processing.

Context {P : Platform}.






End Processing.




(** ** Updating a bill record *)

Section UpdatingBills.

Context {P : Platform}.







End UpdatingBills.




(** ** The queries *)

Lemma insertByDate_perm r l : Permutation (insertByDate r l) (r :: l).
Proof.
  induction l as [|r' l IH]; [reflexivity|]. cbn [insertByDate].
  destruct (Date.leb (SelicRate.date r) (SelicRate.date r')); [reflexivity|].
  rewrite IH. apply perm_swap.
Qed.

Lemma sortByDate_perm l : Permutation (sortByDate l) l.
Proof.
  induction l as [|r l IH]; [reflexivity|]. cbn [sortByDate fold_right].
  fold (sortByDate l). rewrite insertByDate_perm. constructor. exact IH.
Qed.

Lemma insertByDate_ascending r l :
  ascending l -> ascending (insertByDate r l).
Proof.
  induction l as [|r' l IH]; intros Hl.
  - cbn. split; [intros ? []|exact I].
  - cbn [insertByDate]. unfold Date.leb.
    destruct (Z.leb_spec (Date.getTime (SelicRate.date r))
                         (Date.getTime (SelicRate.date r'))) as [Hle|Hgt].
    + split; [|exact Hl]. intros x [<-|Hx]; [exact Hle|].
      destruct Hl as [Hhead _]. specialize (Hhead x Hx). lia.
    + destruct Hl as [Hhead Htail]. split; [|apply IH; exact Htail].
      intros x Hx.
      apply (Permutation_in _ (insertByDate_perm r l)) in Hx.
      destruct Hx as [<-|Hx]; [lia | apply Hhead; exact Hx].
Qed.

Lemma sortByDate_ascending l : ascending (sortByDate l).
Proof.
  induction l as [|r l IH]; [exact I|]. cbn [sortByDate fold_right].
  apply insertByDate_ascending. exact IH.
Qed.

Lemma insertByDateDesc_perm r l : Permutation (insertByDateDesc r l) (r :: l).
Proof.
  induction l as [|r' l IH]; [reflexivity|]. cbn [insertByDateDesc].
  destruct (Date.geb (SelicRate.date r) (SelicRate.date r')); [reflexivity|].
  rewrite IH. apply perm_swap.
Qed.

Lemma sortByDateDesc_perm l : Permutation (sortByDateDesc l) l.
Proof.
  induction l as [|r l IH]; [reflexivity|]. cbn [sortByDateDesc fold_right].
  fold (sortByDateDesc l). rewrite insertByDateDesc_perm. constructor.
  exact IH.
Qed.

(** The first row by descending date has the latest date. *)
Lemma sortByDateDesc_head l :
  forall r rest,
    sortByDateDesc l = r :: rest ->
    forall r', In r' l ->
               Date.getTime (SelicRate.date r')
               <= Date.getTime (SelicRate.date r).
Proof.
  induction l as [|a l IH]; intros r rest Hs r' Hin; [destruct Hin|].
  cbn [sortByDateDesc fold_right] in Hs. fold (sortByDateDesc l) in Hs.
  destruct (sortByDateDesc l) as [|h t] eqn:Hl.
  - pose proof (sortByDateDesc_perm l) as Hp. rewrite Hl in Hp.
    apply Permutation_nil in Hp. subst l.
    cbn in Hs. injection Hs as <- _. destruct Hin as [<-|[]]. lia.
  - cbn [insertByDateDesc] in Hs. unfold Date.geb in Hs.
    specialize (IH h t eq_refl).
    destruct (Z.leb_spec (Date.getTime (SelicRate.date h))
                         (Date.getTime (SelicRate.date a))) as [Hle|Hgt];
      injection Hs as <- _.
    + destruct Hin as [<-|Hin]; [lia|]. specialize (IH r' Hin). lia.
    + destruct Hin as [<-|Hin]; [lia|]. apply IH. exact Hin.
Qed.

Section QueryTheorems.

Context {P : Platform}.

(** X13.  The rates fetched for a period are the rates of the table dated
    from the start to the end, both included, each as often as the table
    has it, in ascending order of date; the query does not throw and
    changes nothing. *)
Theorem getSelicRatesForPeriod_sorted startDate endDate db :
  exists rates,
    getSelicRatesForPeriod startDate endDate db = (Returned rates, db)
    /\ ascending rates
    /\ Permutation rates
         (filter (fun r =>
                    (Date.getTime startDate <=? Date.getTime (SelicRate.date r))
                    && (Date.getTime (SelicRate.date r) <=? Date.getTime endDate))
                 (selicRatesTable db))
    /\ forall r, In r rates
                 <-> In r (selicRatesTable db)
                     /\ Date.getTime startDate
                        <= Date.getTime (SelicRate.date r)
                        <= Date.getTime endDate.
Proof.
  eexists. split; [|split; [|split]].
  - unfold getSelicRatesForPeriod. rewrite rethrow_id. reflexivity.
  - apply sortByDate_ascending.
  - apply sortByDate_perm.
  - intros r. split.
    + intros Hin. apply (Permutation_in _ (sortByDate_perm _)) in Hin.
      apply filter_In in Hin. destruct Hin as [Hin Hb].
      unfold Date.geb, Date.leb in Hb. apply andb_true_iff in Hb.
      destruct Hb as [H1 H2]. apply Z.leb_le in H1, H2. auto.
    + intros [Hin [H1 H2]].
      apply (Permutation_in _ (Permutation_sym (sortByDate_perm _))).
      apply filter_In. split; [exact Hin|].
      unfold Date.geb, Date.leb. apply andb_true_iff.
      split; apply Z.leb_le; assumption.
Qed.

(** X14.  [getAllSelicRates] returns every rate of the table, each as
    often as the table has it, in ascending order of date; it does not
    throw and changes nothing. *)
Theorem getAllSelicRates_sorted db :
  exists rates,
    getAllSelicRates db = (Returned rates, db)
    /\ ascending rates
    /\ Permutation rates (selicRatesTable db).
Proof.
  eexists. split; [|split].
  - unfold getAllSelicRates. rewrite rethrow_id. reflexivity.
  - apply sortByDate_ascending.
  - apply sortByDate_perm.
Qed.

(** X15.  [getLatestSelicRate] returns null exactly when the table has no
    rate; otherwise it returns a rate of the table that no rate of the
    table is dated after.  It does not throw and changes nothing. *)
Theorem getLatestSelicRate_latest db :
  (selicRatesTable db = []
   /\ getLatestSelicRate db = (Returned None, db))
  \/ exists rate,
       getLatestSelicRate db = (Returned (Some rate), db)
       /\ In rate (selicRatesTable db)
       /\ forall r, In r (selicRatesTable db) ->
                    Date.getTime (SelicRate.date r)
                    <= Date.getTime (SelicRate.date rate).
Proof.
  unfold getLatestSelicRate. rewrite rethrow_id. unfold bind, readDb.
  destruct (sortByDateDesc (selicRatesTable db)) as [|rate rest] eqn:Hs.
  - left. pose proof (sortByDateDesc_perm (selicRatesTable db)) as Hp.
    rewrite Hs in Hp. apply Permutation_nil in Hp. split; [exact Hp|].
    reflexivity.
  - right. exists rate. split; [reflexivity|]. split.
    + apply (Permutation_in _ (sortByDateDesc_perm (selicRatesTable db))).
      rewrite Hs. left. reflexivity.
    + apply (sortByDateDesc_head _ _ _ Hs).
Qed.

End QueryTheorems.



Section StatusTheorems.

Context {P : Platform}.



End StatusTheorems.


(** ** Loading the rates *)

Lemma isoDate_eqb_refl k : Date.isoDate_eqb k k = true.
Proof.
  destruct k as [[y m] d]. unfold Date.isoDate_eqb.
  rewrite !Z.eqb_refl. reflexivity.
Qed.

Lemma isoDate_eqb_sym a b : Date.isoDate_eqb a b = Date.isoDate_eqb b a.
Proof.
  destruct a as [[y1 m1] d1], b as [[y2 m2] d2]. unfold Date.isoDate_eqb.
  rewrite (Z.eqb_sym y1), (Z.eqb_sym m1), (Z.eqb_sym d1). reflexivity.
Qed.

Lemma hasDate_app k a b : hasDate k (a ++ b) = hasDate k a || hasDate k b.
Proof. unfold hasDate. apply existsb_app. Qed.

Lemma hasDate_last k a : hasDate k (a ++ [k]) = true.
Proof.
  rewrite hasDate_app. unfold hasDate at 2. cbn [existsb].
  rewrite isoDate_eqb_refl. apply orb_true_iff. right. reflexivity.
Qed.

Lemma distinctKeys_snoc keys k :
  distinctKeys keys -> hasDate k keys = false -> distinctKeys (keys ++ [k]).
Proof.
  induction keys as [|a keys IH]; intros Hd Hk.
  - cbn. auto.
  - destruct Hd as [Ha Hd]. unfold hasDate in Hk. cbn [existsb] in Hk.
    apply orb_false_iff in Hk. destruct Hk as [Hka Hk].
    cbn [app distinctKeys]. split.
    + rewrite hasDate_app, Ha. unfold hasDate. cbn [existsb].
      rewrite isoDate_eqb_sym, Hka. reflexivity.
    + apply IH; assumption.
Qed.

Section Loading.

Context {P : Platform}.

(** The keys of the rows the loaded lines add. *)
Lemma dateKeys_loadedRows now os :
  forall i, dateKeys (loadedRows now i os) = keysOf os.
Proof.
  induction os as [|o os IH]; intros i; [reflexivity|].
  destruct o as [date v| |]; cbn [loadedRows keysOf flat_map app].
  - unfold dateKeys. cbn [map SelicRate.date]. f_equal. apply IH.
  - apply IH.
  - apply IH.
Qed.

(** What [loadSelicData] returns and leaves behind for a file. *)
Lemma loadSelicData_run now csvContent db :
  let os := lineOutcomes (dateKeys (selicRatesTable db))
                         (dataLinesOf csvContent) in
  loadSelicData now (Some csvContent) db
  = (Returned (LoadResult.mk (countOf isLoaded os) (countOf isSkipped os)
                             (countOf isFailed os)),
     withLoaded now os db).
Proof.
  intros os. unfold loadSelicData. rewrite rethrow_id.
  unfold bind at 1. unfold readDb at 1. unfold bind.
  destruct (loadLines_outcomes now (dataLinesOf csvContent)
              (mkLoadState 0 0 0
                 (map (fun r => Date.isoDate (SelicRate.date r))
                      (selicRatesTable db))) db) as (keys & ->).
  cbn [loaded skipped errors existingDates ret]. reflexivity.
Qed.

(** A load that loads nothing leaves the database as it was. *)
Lemma withLoaded_none now os db :
  countOf isLoaded os = 0 -> withLoaded now os db = db.
Proof.
  intros H. unfold withLoaded. rewrite H, Z.add_0_r.
  replace (loadedRows now (nextRateId db) os) with (@nil SelicRate.t).
  - rewrite app_nil_r. destruct db. reflexivity.
  - symmetry. revert H. generalize (nextRateId db).
    induction os as [|o os IH]; intros i H; [reflexivity|].
    rewrite countOf_cons in H.
    assert (0 <= countOf isLoaded os) by (unfold countOf; lia).
    destruct o; cbn [isLoaded loadedRows] in *; [lia | |]; apply IH; lia.
Qed.

(** The keys after a load cover the keys before it. *)
Lemma lineOutcomes_again lines :
  forall known seen,
    (forall k, hasDate k (known ++ keysOf (lineOutcomes known lines)) = true
               -> hasDate k seen = true) ->
    countOf isLoaded (lineOutcomes seen lines) = 0
    /\ countOf isLoaded (lineOutcomes known lines)
       + countOf isSkipped (lineOutcomes known lines)
       <= countOf isSkipped (lineOutcomes seen lines).
Proof.
  induction lines as [|line rest IH]; intros known seen Hcover.
  - cbn. unfold countOf. cbn. lia.
  - cbn [lineOutcomes] in *. rewrite !countOf_cons.
    assert (Hknown : forall k, hasDate k known = true
                               -> hasDate k seen = true).
    { intros k Hk. apply Hcover. rewrite hasDate_app, Hk. reflexivity. }
    assert (Hhead :
      match lineOutcome known line with
      | LineLoaded date _ =>
          lineOutcome seen line = LineSkipped
      | LineSkipped => lineOutcome seen line = LineSkipped
      | LineFailed => isLoaded (lineOutcome seen line) = false
      end).
    { assert (Hloaded : forall date v,
                lineOutcome known line = LineLoaded date v ->
                hasDate (Date.isoDate date) seen = true).
      { intros date v E. apply Hcover. rewrite E.
        cbn [keysOf flat_map]. rewrite hasDate_app. apply orb_true_iff.
        right. unfold hasDate. cbn [app existsb].
        rewrite isoDate_eqb_refl. reflexivity. }
      revert Hloaded. unfold lineOutcome.
      destruct (map Js.trim (Js.split "," line)) as [|dateStr [|rateStr cols]];
        try reflexivity.
      destruct (Js.nonempty dateStr && Js.nonempty rateStr); [|reflexivity].
      destruct (Date_parse dateStr) as [date|]; [|reflexivity].
      destruct (is_nan (parseFloat rateStr)); [reflexivity|].
      destruct (hasDate (Date.isoDate date) known) eqn:Hk.
      - intros _. rewrite (Hknown _ Hk). reflexivity.
      - destruct (pg_numeric 6 4 (parseFloat rateStr)) as [v|].
        + intros Hloaded. rewrite (Hloaded date v eq_refl). reflexivity.
        + intros _. destruct (hasDate (Date.isoDate date) seen); reflexivity. }
    destruct (lineOutcome known line) as [date v| |] eqn:E0.
    + rewrite Hhead. cbn [isLoaded isSkipped].
      destruct (IH (known ++ [Date.isoDate date]) seen) as [Hl Hs].
      { intros k Hk. apply Hcover. cbn [keysOf flat_map].
        fold (keysOf (lineOutcomes (known ++ [Date.isoDate date]) rest)).
        rewrite app_assoc. exact Hk. }
      lia.
    + rewrite Hhead. cbn [isLoaded isSkipped].
      destruct (IH known seen) as [Hl Hs].
      { intros k Hk. apply Hcover. exact Hk. }
      lia.
    + assert (Hseen : lineOutcomes
                        match lineOutcome seen line with
                        | LineLoaded date _ => seen ++ [Date.isoDate date]
                        | _ => seen
                        end rest
                      = lineOutcomes seen rest).
      { destruct (lineOutcome seen line); [discriminate | reflexivity..]. }
      rewrite Hseen, Hhead. cbn [isLoaded isSkipped].
      destruct (IH known seen) as [Hl Hs].
      { intros k Hk. apply Hcover. exact Hk. }
      destruct (isSkipped (lineOutcome seen line)); lia.
Qed.

(** The keys stay distinct under a load. *)
Lemma lineOutcomes_distinct lines :
  forall known,
    distinctKeys known ->
    distinctKeys (known ++ keysOf (lineOutcomes known lines)).
Proof.
  induction lines as [|line rest IH]; intros known Hd.
  - cbn. rewrite app_nil_r. exact Hd.
  - cbn [lineOutcomes].
    assert (Hfresh : forall date v,
              lineOutcome known line = LineLoaded date v ->
              hasDate (Date.isoDate date) known = false).
    { intros date v. unfold lineOutcome.
      destruct (map Js.trim (Js.split "," line)) as [|dateStr [|rateStr cols]];
        try discriminate.
      destruct (Js.nonempty dateStr && Js.nonempty rateStr); [|discriminate].
      destruct (Date_parse dateStr) as [date'|]; [|discriminate].
      destruct (is_nan (parseFloat rateStr)); [discriminate|].
      destruct (hasDate (Date.isoDate date') known) eqn:Hk; [discriminate|].
      destruct (pg_numeric 6 4 (parseFloat rateStr)); [|discriminate].
      intros [= <- _]. exact Hk. }
    destruct (lineOutcome known line) as [date v| |];
      cbn [keysOf flat_map app].
    + fold (keysOf (lineOutcomes (known ++ [Date.isoDate date]) rest)).
      change (known ++ Date.isoDate date
                :: keysOf (lineOutcomes (known ++ [Date.isoDate date]) rest))
        with (known ++ [Date.isoDate date]
                ++ keysOf (lineOutcomes (known ++ [Date.isoDate date]) rest)).
      rewrite app_assoc. apply IH. apply distinctKeys_snoc; [exact Hd|].
      apply (Hfresh date v). reflexivity.
    + apply IH. exact Hd.
    + apply IH. exact Hd.
Qed.

(** X18.  Loading the same file again loads nothing: after a load, a
    second load of the same file, at any time, counts no line as loaded,
    counts as skipped at least the lines the first load had loaded or
    skipped, and leaves the database as the first load left it. *)
Theorem loadSelicData_reload now now' csvContent db :
  exists first again,
    fst (loadSelicData now (Some csvContent) db) = Returned first
    /\ loadSelicData now' (Some csvContent)
         (snd (loadSelicData now (Some csvContent) db))
       = (Returned again, snd (loadSelicData now (Some csvContent) db))
    /\ LoadResult.loaded again = 0
    /\ LoadResult.loaded first + LoadResult.skipped first
       <= LoadResult.skipped again
    /\ LoadResult.skipped again + LoadResult.errors again
       = Z.of_nat (List.length (dataLinesOf csvContent)).
Proof.
  rewrite (loadSelicData_run now csvContent db). cbv zeta. cbn [fst snd].
  set (known := dateKeys (selicRatesTable db)).
  set (os := lineOutcomes known (dataLinesOf csvContent)).
  rewrite (loadSelicData_run now' csvContent (withLoaded now os db)).
  cbv zeta.
  set (seen := dateKeys (selicRatesTable (withLoaded now os db))).
  set (os' := lineOutcomes seen (dataLinesOf csvContent)).
  assert (Hseen : seen = known ++ keysOf os).
  { subst seen. unfold withLoaded. cbn [selicRatesTable]. unfold dateKeys.
    rewrite map_app. fold (dateKeys (selicRatesTable db)).
    fold (dateKeys (loadedRows now (nextRateId db) os)).
    rewrite dateKeys_loadedRows. reflexivity. }
  destruct (lineOutcomes_again (dataLinesOf csvContent) known seen)
    as [Hnone Hskip].
  { intros k Hk. rewrite Hseen. exact Hk. }
  fold os in Hskip. fold os' in Hnone, Hskip.
  do 2 eexists. split; [reflexivity|]. split.
  - rewrite (withLoaded_none now' os' _ Hnone). reflexivity.
  - cbn [LoadResult.loaded LoadResult.skipped LoadResult.errors].
    split; [exact Hnone|]. split; [exact Hskip|].
    pose proof (outcomes_counted os') as Hc.
    subst os'. rewrite lineOutcomes_length in Hc. lia.
Qed.

(** X19.  The load never gives the table a calendar date twice: when the
    rates of the table have distinct calendar dates before a load, of a
    file or of no file, they have after it. *)
Theorem loadSelicData_keeps_distinct now file db :
  distinctKeys (dateKeys (selicRatesTable db)) ->
  distinctKeys (dateKeys (selicRatesTable (snd (loadSelicData now file db)))).
Proof.
  intros Hd. destruct file as [csvContent|].
  - rewrite (loadSelicData_run now csvContent db). cbv zeta.
    cbn [snd withLoaded selicRatesTable]. unfold dateKeys at 1.
    rewrite map_app. fold (dateKeys (selicRatesTable db)).
    match goal with
    | |- context [map _ (loadedRows ?n ?i ?os)] =>
        change (map (fun r => Date.isoDate (SelicRate.date r))
                    (loadedRows n i os))
          with (dateKeys (loadedRows n i os))
    end.
    rewrite dateKeys_loadedRows. apply lineOutcomes_distinct. exact Hd.
  - exact Hd.
Qed.

End Loading.

Lemma loadSelicData_keeps_distinct_witness :
  distinctKeys
    (dateKeys
       (selicRatesTable
          (snd (loadSelicData (P := Sample.platform) Sample.t1
                  (Some Sample.sameMonthFile) Sample.dbJanFeb)))).
Proof.
  apply (loadSelicData_keeps_distinct (P := Sample.platform)).
  vm_compute. auto.
Defined.

(** ** The correction *)

Section CorrectionTheorems.

Context {P : Platform}.

(** X20.  The loop of [calculateAccumulatedCorrection] stops, for every
    pair of dates: with at least one rate, the factor returned is a factor
    the [while] loop stops with, started on the start date with the
    factor 1, and the loop stops with no other. *)
Theorem calculateAccumulatedCorrection_terminates selicRates startDate
    endDate :
  selicRates <> [] ->
  Loop (monthlyRatesOf selicRates) endDate startDate 1
       (calculateAccumulatedCorrection selicRates startDate endDate)
  /\ forall r,
       Loop (monthlyRatesOf selicRates) endDate startDate 1 r ->
       r = calculateAccumulatedCorrection selicRates startDate endDate.
Proof.
  intros Hne.
  assert (Hloop : Loop (monthlyRatesOf selicRates) endDate startDate 1
                    (calculateAccumulatedCorrection selicRates startDate
                                                    endDate)).
  { unfold calculateAccumulatedCorrection.
    destruct selicRates as [|rate rates]; [congruence|].
    cbn [List.length Nat.eqb]. apply walk_exits. }
  split; [exact Hloop|]. intros r Hr.
  exact (Loop_functional _ _ _ _ _ _ Hr Hloop).
Qed.

(** X21.  The factor between two dates, for a start date on a day of the
    month from 1 to 28 and at least one rate: 1 multiplied in turn by
    1 + the rate of each month from the month of the start date to the
    month before that of the end date, and by that of the month of the end
    date too when the start date lies earlier in its month than the end
    date in its own; a month counts by the last of the rates dated in it,
    and for 0 without one. *)
Theorem calculateAccumulatedCorrection_closed_form selicRates startDate
    endDate :
  Date.valid startDate -> Date.valid endDate ->
  Date.day startDate <= 28 ->
  selicRates <> [] ->
  calculateAccumulatedCorrection selicRates startDate endDate
  = compoundFrom selicRates (Date.monthIndex startDate)
      (Z.to_nat (Date.monthIndex endDate - Date.monthIndex startDate
                 + (if withinMonth startDate <? withinMonth endDate
                    then 1 else 0)))
      1.
Proof.
  intros Hs He Hd Hne.
  exact (calculateAccumulatedCorrection_months selicRates startDate endDate
           Hs He Hd Hne).
Qed.

(** What [storeCorrected] leaves behind. *)
Lemma storeCorrected_db now x amount db :
  match pg_numeric 10 2 amount with
  | None => storeCorrected now x amount db = (Thrown DbError, db)
  | Some v =>
      snd (storeCorrected now x amount db) = withCorrected x v db
      /\ (filter (fun r => BillRow.id r =? x) (electricityBillsTable db) = []
          -> fst (storeCorrected now x amount db) = Thrown TypeError)
  end.
Proof.
  destruct (pg_numeric 10 2 amount) as [v|] eqn:Hv.
  - unfold storeCorrected, updateBillsById, storedBillSet, numericOpt.
    cbn [set_total_amount set_energy_consumption set_corrected_amount
         set_bill_date set_extraction_status set_error_message].
    rewrite Hv. cbn [option_map].
    unfold bind, ret, writeDb, selectBillsById, readDb, withBillSet.
    cbn [fst snd electricityBillsTable].
    rewrite filter_map_update by reflexivity.
    destruct (filter (fun r => BillRow.id r =? x) (electricityBillsTable db))
      as [|r rows]; cbn [map firstRow]; split; try reflexivity.
    discriminate.
  - apply storeCorrected_rejected. exact Hv.
Qed.

(** An update that selects no row changes nothing. *)
Lemma withCorrected_no_row x v db :
  filter (fun r => BillRow.id r =? x) (electricityBillsTable db) = [] ->
  withCorrected x v db = db.
Proof.
  intros Hf. unfold withCorrected, withBillSet.
  replace (map _ (electricityBillsTable db)) with (electricityBillsTable db).
  - destruct db. reflexivity.
  - revert Hf. induction (electricityBillsTable db) as [|r rows IH];
      [reflexivity|].
    cbn [filter map]. destruct (BillRow.id r =? x); [discriminate|].
    intros Hf. f_equal. apply IH. exact Hf.
Qed.

(** X22.  A bill dated before the current time with no rate dated from
    the bill date to the current time gets its own amount as corrected
    amount: the total amount, as the column keeps it, is written to the
    record and returned, and nothing else changes. *)
Theorem calculateSelicCorrection_no_rates now bill db date v :
  ElectricityBill.bill_date bill = Some date ->
  Js.truthy (ElectricityBill.total_amount bill) = true ->
  Date.ltb date now = true ->
  ratesInPeriod db date now = [] ->
  (exists r, In r (electricityBillsTable db)
             /\ BillRow.id r = ElectricityBill.id bill) ->
  pg_numeric 10 2 (ElectricityBill.total_amount bill) = Some v ->
  exists b,
    calculateSelicCorrection now bill db
    = (Returned b, withCorrected (ElectricityBill.id bill) v db)
    /\ ElectricityBill.corrected_amount b = Some v.
Proof.
  intros Hdate Hp Hlt Hrates Hrow Hv.
  rewrite (calculateSelicCorrection_accepted now bill db date Hdate Hp).
  assert (Hamount : correctedAmountOf now (selicRatesTable db)
                      (ElectricityBill.total_amount bill) date
                    = ElectricityBill.total_amount bill).
  { unfold correctedAmountOf.
    replace (Date.geb date now) with false.
    - fold (ratesInPeriod db date now). rewrite Hrates. reflexivity.
    - symmetry. unfold Date.ltb in Hlt. unfold Date.geb.
      apply Z.ltb_lt in Hlt. apply Z.leb_gt. exact Hlt. }
  rewrite Hamount.
  exact (storeCorrected_returns now (ElectricityBill.id bill) _ v db Hv Hrow).
Qed.

(** X23.  The correction of a bill that has no record fails without a
    message of its own: for a bill with a date and an amount other than 0
    whose number no record has, [calculateSelicCorrection] throws, a type
    error from reading the missing row or the error of the database that
    rejected the amount, and leaves the database as it was. *)
Theorem calculateSelicCorrection_missing_record now bill db date :
  ElectricityBill.bill_date bill = Some date ->
  Js.truthy (ElectricityBill.total_amount bill) = true ->
  filter (fun r => BillRow.id r =? ElectricityBill.id bill)
         (electricityBillsTable db) = [] ->
  exists e,
    calculateSelicCorrection now bill db = (Thrown e, db)
    /\ (e = TypeError \/ e = DbError).
Proof.
  intros Hdate Hp Hf.
  rewrite (calculateSelicCorrection_accepted now bill db date Hdate Hp).
  pose proof (storeCorrected_db now (ElectricityBill.id bill)
                (correctedAmountOf now (selicRatesTable db)
                   (ElectricityBill.total_amount bill) date) db) as H.
  destruct (pg_numeric 10 2 _) as [v|].
  - destruct H as [Hdb Hthrow]. specialize (Hthrow Hf).
    rewrite (withCorrected_no_row _ v db Hf) in Hdb.
    exists TypeError. split; [|left; reflexivity].
    destruct (storeCorrected _ _ _ _) as [o db']. cbn [fst snd] in *.
    subst. reflexivity.
  - exists DbError. split; [exact H | right; reflexivity].
Qed.

(** X24.  The correction writes one column: whatever the bill and the
    database, after [calculateSelicCorrection], returned or thrown, the
    database is as before, or as before with the corrected amount of the
    records with the number of the bill set to one value. *)
Theorem calculateSelicCorrection_frame now bill db :
  snd (calculateSelicCorrection now bill db) = db
  \/ exists v,
       snd (calculateSelicCorrection now bill db)
       = withCorrected (ElectricityBill.id bill) v db.
Proof.
  destruct (ElectricityBill.bill_date bill) as [date|] eqn:Hdate.
  - destruct (Js.truthy (ElectricityBill.total_amount bill)) eqn:Hp.
    + rewrite (calculateSelicCorrection_accepted now bill db date Hdate Hp).
      pose proof (storeCorrected_db now (ElectricityBill.id bill)
                    (correctedAmountOf now (selicRatesTable db)
                       (ElectricityBill.total_amount bill) date) db) as H.
      destruct (pg_numeric 10 2 _) as [v|].
      * right. exists v. apply H.
      * left. rewrite H. reflexivity.
    + left. rewrite calculateSelicCorrection_rejected; [reflexivity|].
      right. exact Hp.
  - left. rewrite calculateSelicCorrection_rejected; [reflexivity|].
    left. exact Hdate.
Qed.

End CorrectionTheorems.

Lemma calculateAccumulatedCorrection_terminates_witness :
  Loop (monthlyRatesOf (ratesInPeriod Sample.dbFebMar Sample.jan15
                                      Sample.mar20))
       Sample.mar20 Sample.jan15 1
       (calculateAccumulatedCorrection
          (ratesInPeriod Sample.dbFebMar Sample.jan15 Sample.mar20)
          Sample.jan15 Sample.mar20).
Proof.
  destruct (calculateAccumulatedCorrection_terminates
              (ratesInPeriod Sample.dbFebMar Sample.jan15 Sample.mar20)
              Sample.jan15 Sample.mar20) as [Hloop _].
  - vm_compute. discriminate.
  - exact Hloop.
Defined.

Lemma calculateAccumulatedCorrection_closed_form_witness :
  calculateAccumulatedCorrection
    (ratesInPeriod Sample.dbFebMar Sample.jan15 Sample.mar20)
    Sample.jan15 Sample.mar20
  = compoundFrom (ratesInPeriod Sample.dbFebMar Sample.jan15 Sample.mar20)
      (Date.monthIndex Sample.jan15) 3 1.
Proof.
  apply (calculateAccumulatedCorrection_closed_form
           (ratesInPeriod Sample.dbFebMar Sample.jan15 Sample.mar20)
           Sample.jan15 Sample.mar20).
  - apply valid_validb. reflexivity.
  - apply valid_validb. reflexivity.
  - vm_compute. discriminate.
  - vm_compute. discriminate.
Defined.

Lemma calculateSelicCorrection_no_rates_witness :
  exists b,
    calculateSelicCorrection (P := Sample.platform) Sample.mar1
      (Sample.billOf 1000 Sample.jan1) (Sample.dbOf 1000 Sample.jan1 [])
    = (Returned b, withCorrected 1 1000 (Sample.dbOf 1000 Sample.jan1 []))
    /\ ElectricityBill.corrected_amount b = Some 1000%float.
Proof.
  apply (calculateSelicCorrection_no_rates (P := Sample.platform) Sample.mar1
           (Sample.billOf 1000 Sample.jan1) (Sample.dbOf 1000 Sample.jan1 [])
           Sample.jan1).
  - reflexivity.
  - reflexivity.
  - reflexivity.
  - reflexivity.
  - eexists. split; [left; reflexivity | reflexivity].
  - vm_compute. reflexivity.
Defined.

Lemma calculateSelicCorrection_missing_record_witness :
  exists e,
    calculateSelicCorrection (P := Sample.platform) Sample.mar1
      Sample.otherBill1000 Sample.dbJanFeb
    = (Thrown e, Sample.dbJanFeb)
    /\ (e = TypeError \/ e = DbError).
Proof.
  apply (calculateSelicCorrection_missing_record (P := Sample.platform)
           Sample.mar1 Sample.otherBill1000 Sample.dbJanFeb Sample.jan1).
  - reflexivity.
  - reflexivity.
  - reflexivity.
Defined.

(** ** The report and the counters *)

Lemma terminalCount_counts u bills :
  terminalCount u bills
  = countStatus success
      (filter (fun r => BillRow.upload_id r =? u) bills)
    + countStatus error
        (filter (fun r => BillRow.upload_id r =? u) bills).
Proof.
  induction bills as [|r bills IH]; [reflexivity|].
  change (r :: bills) with ([r] ++ bills) at 1.
  rewrite terminalCount_app, terminalCount_one, IH. cbn [filter].
  destruct (BillRow.upload_id r =? u); cbn [andb]; [|lia].
  cbn [countStatus]. unfold isTerminal.
  destruct (BillRow.extraction_status r);
    cbn [ExtractionStatus_eqb negb]; lia.
Qed.

(** X25.  The report agrees with the counters of the batch: in a database
    whose batches have counted their records that left 'pending', the
    successful and the failed extractions of the report of a batch add up
    to the processed_files of the batch, and the bills beyond them are the
    pending ones. *)
Theorem generateReport_matches_progress now input db batch rest :
  tracked db ->
  filter (fun b => Batch.id b =? GenerateReportInput.upload_id input)
         (uploadBatchesTable db) = batch :: rest ->
  exists report,
    generateReport now input db = (Returned report, db)
    /\ Summary.successful_extractions (ConsolidatedReport.summary report)
       + Summary.failed_extractions (ConsolidatedReport.summary report)
       = Batch.processed_files batch
    /\ Summary.total_bills (ConsolidatedReport.summary report)
       - Batch.processed_files batch
       = countStatus pending
           (filter (fun r => BillRow.upload_id r
                             =? GenerateReportInput.upload_id input)
                   (electricityBillsTable db)).
Proof.
  intros Htr Hf.
  destruct (filter_head_in _ _ _ _ Hf) as [Hin Hid]. apply Z.eqb_eq in Hid.
  pose proof (Htr batch Hin) as Hcount.
  rewrite Hid, terminalCount_counts in Hcount.
  unfold generateReport. rewrite rethrow_id.
  unfold bind, selectBatchesById, selectBillsByUpload, readDb, ret.
  rewrite Hf. cbn [List.length Nat.eqb].
  eexists. split; [reflexivity|].
  cbn [ConsolidatedReport.summary]. unfold summaryOf.
  cbn [Summary.total_bills Summary.successful_extractions
       Summary.failed_extractions].
  rewrite length_map, count_success, count_error.
  split; [symmetry; exact Hcount|].
  rewrite (countStatus_partition
             (filter (fun r => BillRow.upload_id r
                               =? GenerateReportInput.upload_id input)
                     (electricityBillsTable db))).
  lia.
Qed.

Lemma generateReport_matches_progress_witness :
  exists report,
    generateReport Sample.t2 Sample.reportInput
      (snd (updateBillResult (P := Sample.platform) Sample.t1
              Sample.firstResult
              (snd (uploadZip Sample.t0 Sample.twoFiles emptyDB))))
    = (Returned report,
       snd (updateBillResult (P := Sample.platform) Sample.t1
              Sample.firstResult
              (snd (uploadZip Sample.t0 Sample.twoFiles emptyDB))))
    /\ Summary.successful_extractions (ConsolidatedReport.summary report)
       + Summary.failed_extractions (ConsolidatedReport.summary report)
       = 1.
Proof.
  destruct (generateReport_matches_progress Sample.t2 Sample.reportInput
              (snd (updateBillResult (P := Sample.platform) Sample.t1
                      Sample.firstResult
                      (snd (uploadZip Sample.t0 Sample.twoFiles emptyDB))))
              (Batch.mk 1 "two.zip" 2 1 0 processing Sample.t0 None) [])
    as (report & Hrun & Hsum & _).
  - intros b Hb. vm_compute in Hb. destruct Hb as [<-|[]]. reflexivity.
  - reflexivity.
  - exists report. split; [exact Hrun | exact Hsum].
Defined.

(** ** Days that the next month lacks *)

Section ShortMonths.

Context {P : Platform}.

(** X26.  A start date on a day of the month that the following month
    lacks (the 31st before a month of 30 days, the 29th to 31st of
    January) makes the loop pass over the following month: after the
    month of the start date, the loop is on a date of the second month
    after it, and the factor is 1 + the rate of the month of the start
    date, multiplied by the rates from the second month after it on; the
    rate of the month in between is not used. *)
Theorem calculateAccumulatedCorrection_skips_short_month selicRates
    startDate endDate :
  Date.valid startDate -> Date.valid endDate -> selicRates <> [] ->
  Date.ltb startDate endDate = true ->
  Date.daysInMonth ((Date.monthIndex startDate + 1) / 12)
                   ((Date.monthIndex startDate + 1) mod 12)
  < Date.day startDate ->
  let next := Date.setMonth startDate (Date.getMonth startDate + 1) in
  Date.monthIndex next = Date.monthIndex startDate + 2
  /\ calculateAccumulatedCorrection selicRates startDate endDate
     = compoundFrom selicRates (Date.monthIndex startDate + 2)
         (monthsTraversed next endDate)
         (1 * (1 + rateOfMonth selicRates
                     (monthOfIndex (Date.monthIndex startDate))))%float.
Proof.
  intros Hs He Hne Hlt Hshort next.
  set (k := Date.monthIndex startDate) in *.
  set (dim := Date.daysInMonth ((k + 1) / 12) ((k + 1) mod 12)) in *.
  assert (Hnext : next = Date.mk ((k + 2) / 12) ((k + 2) mod 12)
                           (Date.day startDate - dim) (Date.ms startDate)).
  { unfold next, Date.setMonth, Date.getMonth, Date.ofMonthDay.
    replace (12 * Date.year startDate + (Date.month startDate + 1))
      with (k + 1) by (unfold k, Date.monthIndex; lia).
    fold dim.
    destruct (Z.leb_spec (Date.day startDate) dim) as [Hle|_]; [lia|].
    replace (k + 1 + 1) with (k + 2) by lia. reflexivity. }
  assert (Hindex : Date.monthIndex next = k + 2).
  { rewrite Hnext. unfold Date.monthIndex. cbn [Date.year Date.month].
    apply monthIndex_split. }
  split; [exact Hindex|].
  unfold calculateAccumulatedCorrection.
  destruct selicRates as [|r0 rs]; [congruence|]. cbn [List.length Nat.eqb].
  set (rates := r0 :: rs).
  apply (Loop_functional (monthlyRatesOf rates) endDate startDate 1%float).
  - apply walk_exits.
  - apply Loop_step; [exact Hlt|].
    rewrite monthlyRateAt_rateOfMonth.
    replace (monthKey startDate) with (monthOfIndex k).
    2:{ unfold monthKey, monthOfIndex, Date.getFullYear, Date.getMonth.
        destruct (valid_index startDate Hs) as [Ey Em]. fold k in Ey, Em.
        rewrite Ey, Em. reflexivity. }
    fold next. rewrite Hnext.
    pose proof (daysInMonth_bounds ((k + 1) / 12) ((k + 1) mod 12)) as Hb.
    pose proof (daysInMonth_bounds (Date.year startDate)
                                   (Date.month startDate)) as Hb'.
    fold dim in Hb. destruct Hs as (Hm & Hdy & Hms).
    apply Loop_months; [exact He | lia | exact Hms |].
    unfold monthsTraversed. rewrite <- Hnext, Hindex. rewrite Hnext.
    unfold withinMonth at 1. cbn [Date.day Date.ms].
    destruct (_ <? withinMonth endDate); lia.
Qed.

End ShortMonths.

Lemma calculateAccumulatedCorrection_skips_short_month_witness :
  calculateAccumulatedCorrection
    (ratesInPeriod Sample.dbFebMar Sample.jan15 Sample.mar20)
    Sample.jan31 Sample.mar20
  = compoundFrom (ratesInPeriod Sample.dbFebMar Sample.jan15 Sample.mar20)
      (Date.monthIndex Sample.jan31 + 2)
      (monthsTraversed (Date.ymd 2023 3 3) Sample.mar20)
      (1 * (1 + rateOfMonth
                  (ratesInPeriod Sample.dbFebMar Sample.jan15 Sample.mar20)
                  (monthOfIndex (Date.monthIndex Sample.jan31))))%float.
Proof.
  destruct (calculateAccumulatedCorrection_skips_short_month
              (ratesInPeriod Sample.dbFebMar Sample.jan15 Sample.mar20)
              Sample.jan31 Sample.mar20) as [_ Hcalc].
  - apply valid_validb. reflexivity.
  - apply valid_validb. reflexivity.
  - vm_compute. discriminate.
  - reflexivity.
  - vm_compute. reflexivity.
  - exact Hcalc.
Defined.
